(** * kichwaniRada backend: chat turn orchestration, crisis gating and mood insights

    A shallow embedding of
      - [backend/app/services/openai_service.py]  (module [OpenAIService]),
      - [backend/app/routes/chat.py]              (module [Chat]),
      - [backend/app/services/twilio_service.py]  (module [Twilio]),
      - [backend/app/routes/mood.py]              (module [Mood]),
    then of the rest of these files and of [backend/app/routes/auth.py]
    (modules [TwilioService], [ChatHistory], [MoodHistory], [Auth]),
    followed by the properties of the specification that were checked
    against it.

    Conventions.  Firestore and the OpenAI endpoint are external: every call the
    code makes to them takes its outcome from an explicit environment record,
    and the database is threaded through the handlers as a value.  A Python
    exception that a handler does not catch is the result [Unhandled]. *)

From Stdlib Require Import ZArith QArith Qcanon String Ascii List Lia Bool Sorted Permutation.
From stdpp Require Import base option list strings gmap.

Local Open Scope string_scope.
Local Open Scope list_scope.
Local Open Scope Z_scope.

(** ** Python primitives used by the handlers *)
Module Py.

(** [str.isspace] on one ASCII character: TAB..CR, FS..US and the space. *)
Definition isspace (c : ascii) : bool :=
  let n := nat_of_ascii c in
  ((9 <=? n) && (n <=? 13) || (28 <=? n) && (n <=? 32))%nat.

Fixpoint lstrip (s : string) : string :=
  match s with
  | String c r => if isspace c then lstrip r else s
  | EmptyString => EmptyString
  end.

(** [rstrip] keeps a character when it is not a space or when something
    survives to its right. *)
Fixpoint rstrip (s : string) : string :=
  match s with
  | EmptyString => EmptyString
  | String c r =>
      match rstrip r with
      | EmptyString => if isspace c then EmptyString else String c EmptyString
      | r' => String c r'
      end
  end.

(** [s.strip()] *)
Definition strip (s : string) : string := rstrip (lstrip s).

(** [not s] for a string: only the empty string is falsy. *)
Definition falsy (s : string) : bool :=
  match s with EmptyString => true | _ => false end.

(** [l[-n:]] for [n > 0]: the last [n] elements, the whole list when it is
    shorter. *)
Definition last_n {A} (n : nat) (l : list A) : list A :=
  drop (length l - n)%nat l.

(** [l[i]] with Python's negative indices; [None] stands for IndexError. *)
Definition index {A} (l : list A) (i : Z) : option A :=
  if i <? 0
  then (if Z.of_nat (length l) + i <? 0 then None
        else l !! Z.to_nat (Z.of_nat (length l) + i))
  else l !! Z.to_nat i.

Definition digit (c : ascii) : option Z :=
  let n := nat_of_ascii c in
  if ((48 <=? n) && (n <=? 57))%nat then Some (Z.of_nat (n - 48)) else None.

(** Digits of a base-10 literal, read left to right, with the single
    underscores Python allows between two digits.  [acc] is the value read so
    far, [after_digit] tells whether the previous character was a digit. *)
Fixpoint digits (s : string) (acc : Z) (after_digit : bool) : option Z :=
  match s with
  | EmptyString => if after_digit then Some acc else None
  | String c r =>
      match digit c with
      | Some d => digits r (10 * acc + d) true
      | None =>
          if (c =? "_")%char && after_digit
          then (match r with
                | String c' _ =>
                    match digit c' with
                    | Some _ => digits r acc false
                    | None => None
                    end
                | EmptyString => None
                end)
          else None
      end
  end.

(** [int(s)] for an ASCII string [s] (base 10); [None] stands for ValueError.
    The limit recent Python versions put on the number of digits is left
    out. *)
Definition int_of_str (s : string) : option Z :=
  match strip s with
  | String "-" r => Z.opp <$> digits r 0 false
  | String "+" r => digits r 0 false
  | r => digits r 0 false
  end.

(** [sum(l)] *)
Definition sum (l : list Z) : Z := foldr Z.add 0 l.

(** [int(x)] for a finite float [x]: truncation toward zero. *)
Definition trunc (q : Qc) : Z := Z.quot (Qnum q) (Zpos (Qden q)).

End Py.

(** ** JSON values, as [json.loads] delivers them *)
Module Json.

(** A finite float is kept as the rational it denotes; NaN and the
    infinities, which [json.loads] also reads, are left out. *)
#[warnings="-register-all"]
Inductive json : Type :=
  | JNull
  | JBool (b : bool)
  | JInt (n : Z)
  | JFloat (q : Qc)
  | JStr (s : string)
  | JArr (l : list json)
  | JObj (o : list (string * json)).

(** [d.get(k)] on the fields of an object; the decoder keeps one binding per
    key. *)
Fixpoint get (o : list (string * json)) (k : string) : option json :=
  match o with
  | [] => None
  | (k', v) :: o' => if String.eqb k k' then Some v else get o' k
  end.

(** [d[k] = v]: replaces the binding of [k] when there is one. *)
Fixpoint set (o : list (string * json)) (k : string) (v : json) : list (string * json) :=
  match o with
  | [] => [(k, v)]
  | (k', v') :: o' => if String.eqb k k' then (k, v) :: o' else (k', v') :: set o' k v
  end.

(** *** A decoder for a fragment of JSON

    The handlers below take the decoder as a parameter.  [loads] is the
    decoder used to run them on concrete texts: it reads null, true, false,
    integers, strings with the one-character escapes, arrays and objects, and
    rejects everything else (in particular fractions, exponents and \u
    escapes, which [json.loads] reads). *)
Definition is_ws (c : ascii) : bool :=
  let n := nat_of_ascii c in
  ((n =? 32) || (n =? 9) || (n =? 10) || (n =? 13))%nat.

Fixpoint skip_ws (s : string) : string :=
  match s with
  | String c r => if is_ws c then skip_ws r else s
  | EmptyString => EmptyString
  end.

Definition dquote : ascii := "034"%char.
Definition backslash : ascii := "092"%char.

Definition unescape (c : ascii) : option ascii :=
  if (c =? dquote)%char then Some dquote
  else if (c =? backslash)%char then Some backslash
  else if (c =? "/")%char then Some "/"%char
  else if (c =? "n")%char then Some "010"%char
  else if (c =? "t")%char then Some "009"%char
  else if (c =? "r")%char then Some "013"%char
  else if (c =? "b")%char then Some "008"%char
  else if (c =? "f")%char then Some "012"%char
  else None.

(** The characters after an opening quote, up to the closing one. *)
Fixpoint string_body (s : string) : option (string * string) :=
  match s with
  | EmptyString => None
  | String c r =>
      if (c =? dquote)%char then Some (EmptyString, r)
      else if (c =? backslash)%char then
        match r with
        | String e r' =>
            match unescape e, string_body r' with
            | Some c', Some (t, rest) => Some (String c' t, rest)
            | _, _ => None
            end
        | EmptyString => None
        end
      else if (nat_of_ascii c <? 32)%nat then None
      else match string_body r with
           | Some (t, rest) => Some (String c t, rest)
           | None => None
           end
  end.

Fixpoint digit_run (s : string) (acc : Z) : Z * string :=
  match s with
  | String c r =>
      match Py.digit c with
      | Some d => digit_run r (10 * acc + d)
      | None => (acc, s)
      end
  | EmptyString => (acc, s)
  end.

Definition starts_fraction (s : string) : bool :=
  match s with
  | String c _ => (c =? ".")%char || (c =? "e")%char || (c =? "E")%char
  | EmptyString => false
  end.

(** [0] or a non-zero digit followed by digits; no fraction, no exponent. *)
Definition natural (s : string) : option (Z * string) :=
  match s with
  | String "0" r => if starts_fraction r then None else Some (0, r)
  | String c r =>
      match Py.digit c with
      | Some d => let '(n, rest) := digit_run r d in
                  if starts_fraction rest then None else Some (n, rest)
      | None => None
      end
  | EmptyString => None
  end.

Definition number (s : string) : option (json * string) :=
  match s with
  | String "-" r => (fun '(n, rest) => (JInt (- n), rest)) <$> natural r
  | _ => (fun '(n, rest) => (JInt n, rest)) <$> natural s
  end.

Fixpoint value (fuel : nat) (s : string) : option (json * string) :=
  match fuel with
  | O => None
  | S fuel =>
      match s with
      | String "n" (String "u" (String "l" (String "l" r))) => Some (JNull, r)
      | String "t" (String "r" (String "u" (String "e" r))) => Some (JBool true, r)
      | String "f" (String "a" (String "l" (String "s" (String "e" r)))) =>
          Some (JBool false, r)
      | String "[" r =>
          match skip_ws r with
          | String "]" r' => Some (JArr [], r')
          | r' => (fun '(l, rest) => (JArr l, rest)) <$> items fuel r'
          end
      | String "{" r =>
          match skip_ws r with
          | String "}" r' => Some (JObj [], r')
          | r' => (fun '(o, rest) => (JObj o, rest)) <$> members fuel [] r'
          end
      | String c r =>
          if (c =? dquote)%char
          then (fun '(t, rest) => (JStr t, rest)) <$> string_body r
          else number s
      | EmptyString => None
      end
  end
with items (fuel : nat) (s : string) : option (list json * string) :=
  match fuel with
  | O => None
  | S fuel =>
      match value fuel s with
      | Some (v, r) =>
          match skip_ws r with
          | String "," r' =>
              (fun '(l, rest) => (v :: l, rest)) <$> items fuel (skip_ws r')
          | String "]" r' => Some ([v], r')
          | _ => None
          end
      | None => None
      end
  end
with members (fuel : nat) (acc : list (string * json)) (s : string)
  : option (list (string * json) * string) :=
  match fuel with
  | O => None
  | S fuel =>
      match s with
      | String c r =>
          if (c =? dquote)%char then
            match string_body r with
            | Some (k, r1) =>
                match skip_ws r1 with
                | String ":" r2 =>
                    match value fuel (skip_ws r2) with
                    | Some (v, r3) =>
                        match skip_ws r3 with
                        | String "," r4 => members fuel (set acc k v) (skip_ws r4)
                        | String "}" r4 => Some (set acc k v, r4)
                        | _ => None
                        end
                    | None => None
                    end
                | _ => None
                end
            | None => None
            end
          else None
      | EmptyString => None
      end
  end.

(** The whole text must be one value, white space around it allowed;
    [None] stands for JSONDecodeError. *)
Definition loads (s : string) : option json :=
  match value (S (String.length s)) (skip_ws s) with
  | Some (v, r) => match skip_ws r with EmptyString => Some v | _ => None end
  | None => None
  end.

End Json.
Export Json(json(..)).

(** ** The OpenAI endpoint and the two calls the service makes to it *)
Module Api.

Record message := { role : string; content : string }.

(** One call of [openai.ChatCompletion.create] followed by the reading of
    [response.choices[0].message["content"]]: the content, or [None] when
    anything in between raises. *)
Definition endpoint := list message -> option string.

End Api.

Module OpenAIService.

(** An element of [chat_history]. *)
Record entry := { sender : string; content : string }.

Definition system_prompt : string := "
You are a supportive mental health chatbot designed to provide empathetic 
responses and helpful guidance. You are not a replacement for professional 
mental health services, and you should always recommend seeking professional 
help for serious concerns. Focus on active listening, validation, and 
providing evidence-based coping strategies when appropriate. Never diagnose 
medical conditions or provide medical advice. If a user appears to be in 
crisis or expresses suicidal thoughts, direct them to appropriate crisis 
resources.
".

Definition classifier_prompt : string := "
Analyze the following message for indicators of mental health crisis. 
Provide a JSON response with the following fields:
- crisis_risk: number between 0-10 (0 being no risk, 10 being severe)
- crisis_type: string (suicidal, self_harm, panic, other, none)
- recommended_action: string (emergency_services, crisis_line, professional_help, self_care, monitor)
Do not include any explanations, just the JSON object.
".

Definition connection_fallback : string :=
  "I'm having trouble connecting right now. Please try again in a moment.".

Definition to_api (msg : entry) : Api.message :=
  {| Api.role := if String.eqb (sender msg) "user" then "user" else "assistant";
     Api.content := content msg |}.

(** The [messages] list [get_chat_response] builds for the endpoint. *)
Definition request_messages (message : string) (chat_history : option (list entry))
  : list Api.message :=
  let chat_history := default [] chat_history in
  [ {| Api.role := "system"; Api.content := system_prompt |} ]
    ++ (to_api <$> Py.last_n 10 chat_history)
    ++ [ {| Api.role := "user"; Api.content := message |} ].

Definition get_chat_response (create : Api.endpoint) (message : string)
    (chat_history : option (list entry)) : string :=
  match create (request_messages message chat_history) with
  | Some text => Py.strip text
  | None => connection_fallback
  end.

Definition parse_default : json :=
  JObj [("crisis_risk", JInt 0); ("crisis_type", JStr "none");
        ("recommended_action", JStr "monitor")].

Definition call_default : json :=
  JObj [("crisis_risk", JInt 5); ("crisis_type", JStr "other");
        ("recommended_action", JStr "crisis_line")].

Definition classifier_messages (message : string) : list Api.message :=
  [ {| Api.role := "system"; Api.content := classifier_prompt |};
    {| Api.role := "user"; Api.content := message |} ].

(** [json_loads] is [json.loads]; [None] is its JSONDecodeError. *)
Definition assess_crisis_risk (json_loads : string -> option json)
    (create : Api.endpoint) (message : string) : json :=
  match create (classifier_messages message) with
  | Some text =>
      match json_loads (Py.strip text) with
      | Some result => result
      | None => parse_default
      end
  | None => call_default
  end.

End OpenAIService.

(** ** The Firestore collections the handlers use *)
Module Store.

(** A document of [chats/<user>/messages]. *)
Record message := {
  sender : string;
  content : string;
  timestamp : Z;
  channel : option string
}.

(** A document of [users/<user>/moods]; [score = None] when the field is
    absent. *)
Record mood := {
  score : option Z;
  label : option string;
  notes : string;
  logged : Z
}.

(** The list of a collection is in the order an unordered query streams it. *)
Record db := {
  chats : gmap string (list message);
  moods : gmap string (list mood)
}.

Definition messages_of (d : db) (user_id : string) : list message :=
  default [] (chats d !! user_id).

Definition moods_of (d : db) (user_id : string) : list mood :=
  default [] (moods d !! user_id).

Definition add_message (d : db) (user_id : string) (m : message) : db :=
  {| chats := <[user_id := messages_of d user_id ++ [m]]> (chats d);
     moods := moods d |}.

Definition add_mood (d : db) (user_id : string) (m : mood) : db :=
  {| chats := chats d;
     moods := <[user_id := moods_of d user_id ++ [m]]> (moods d) |}.

Definition set_messages (d : db) (user_id : string) (l : list message) : db :=
  {| chats := <[user_id := l]> (chats d); moods := moods d |}.

(** [order_by(key)], ascending: a stable insertion sort, so that documents
    with equal keys keep the order of the collection. *)
Fixpoint insert_by {A} (key : A -> Z) (x : A) (l : list A) : list A :=
  match l with
  | [] => [x]
  | y :: l' => if key x <=? key y then x :: l else y :: insert_by key x l'
  end.

Definition order_by {A} (key : A -> Z) (l : list A) : list A :=
  foldr (fun x acc => insert_by key x acc) [] l.

(** What a consumer sees of [stream()]: every document when [fault = None],
    and with [fault = Some n] the first [n] documents and then an exception. *)
Inductive streamed (A : Type) :=
  | Complete (docs : list A)
  | Broken (docs : list A).
Arguments Complete {A} docs.
Arguments Broken {A} docs.

Definition stream {A} (fault : option nat) (l : list A) : streamed A :=
  match fault with
  | None => Complete l
  | Some n => Broken (take n l)
  end.

End Store.

(** ** [routes/chat.py] *)
Module Chat.

Import OpenAIService.

(** What the services answer during one request. *)
Record env := {
  json_loads : string -> option json;
  reply_call : Api.endpoint;
  classifier_call : Api.endpoint;
  read_fault : option nat;      (* the history stream breaks after that many documents *)
  user_write : option Z;        (* server time of the first [add], [None] when it raises *)
  bot_write : option Z          (* the same for the second [add] *)
}.

Inductive response :=
  | Reply (response : string) (crisis_assessment : json)
  | Cleared (deleted : nat)
  | Error (status : Z) (error : string)
  | Unhandled.

Definition suicide_resources : string := "

**Important**: If you're having thoughts of harming yourself, please contact the National Suicide Prevention Lifeline at 988 or 1-800-273-8255, or text HOME to 741741 to reach the Crisis Text Line.".

Definition generic_resources : string := "

**Resources**: If you need immediate support, consider contacting a crisis helpline like 988 (National Suicide Prevention Lifeline) or texting HOME to 741741 (Crisis Text Line).".

(** [x >= 7]; [None] stands for TypeError. *)
Definition at_least_7 (x : json) : option bool :=
  match x with
  | JInt n => Some (7 <=? n)
  | JFloat q => Some (Qle_bool (inject_Z 7) q)
  | JBool b => Some false
  | _ => None
  end.

(** [crisis_assessment.get('crisis_risk', 0) >= 7]; [None] when it raises. *)
Definition high_risk (crisis_assessment : json) : option bool :=
  match crisis_assessment with
  | JObj o => at_least_7 (default (JInt 0) (Json.get o "crisis_risk"))
  | _ => None
  end.

(** [crisis_type == "suicidal" or crisis_type == "self_harm"] *)
Definition self_harm_type (crisis_assessment : json) : bool :=
  match crisis_assessment with
  | JObj o =>
      match Json.get o "crisis_type" with
      | Some (JStr t) => String.eqb t "suicidal" || String.eqb t "self_harm"
      | _ => false
      end
  | _ => false
  end.

(** The block appended to the reply of a high-risk turn. *)
Definition resources (suicide generic : string) (crisis_assessment : json) : string :=
  if self_harm_type crisis_assessment then suicide else generic.

Definition to_entry (m : Store.message) : entry :=
  {| sender := Store.sender m; content := Store.content m |}.

(** [order_by('timestamp', direction='asc').limit(10)] *)
Definition history_query (d : Store.db) (user_id : string) : list Store.message :=
  take 10 (Store.order_by Store.timestamp (Store.messages_of d user_id)).

(** The first [try] of [send_message]: the entries appended before the
    stream ends or breaks. *)
Definition fetch_history (e : env) (d : Store.db) (user_id : string) : list entry :=
  match Store.stream (read_fault e) (history_query d user_id) with
  | Store.Complete docs => to_entry <$> docs
  | Store.Broken docs => to_entry <$> docs
  end.

Definition store (w : option Z) (d : Store.db) (user_id sender content : string) : Store.db :=
  match w with
  | Some t =>
      Store.add_message d user_id
        {| Store.sender := sender; Store.content := content;
           Store.timestamp := t; Store.channel := None |}
  | None => d
  end.

Definition send_message (e : env) (d : Store.db) (user_id message : string)
  : response * Store.db :=
  if Py.falsy user_id || Py.falsy message
  then (Error 400 "Missing required parameters", d)
  else
    let chat_history := fetch_history e d user_id in
    let d := store (user_write e) d user_id "user" message in
    let crisis_assessment :=
      assess_crisis_risk (json_loads e) (classifier_call e) message in
    match high_risk crisis_assessment with
    | None => (Unhandled, d)
    | Some high =>
        let ai_response :=
          get_chat_response (reply_call e) message (Some chat_history) in
        let ai_response :=
          if high
          then ai_response
                 +:+ resources suicide_resources generic_resources crisis_assessment
          else ai_response in
        let d := store (bot_write e) d user_id "bot" ai_response in
        (Reply ai_response crisis_assessment, d)
    end.

Definition batch_size : nat := 100.

(** [fault = Some n]: the [n+1]-th step of the loop (the stream or the
    [delete]) raises, after [n] documents were deleted. *)
Definition clear_chat_history (fault : option nat) (d : Store.db) (user_id : string)
  : response * Store.db :=
  if Py.falsy user_id
  then (Error 400 "User ID is required", d)
  else
    let all := Store.messages_of d user_id in
    let docs := take batch_size all in
    match fault with
    | None =>
        (Cleared (length docs), Store.set_messages d user_id (drop (length docs) all))
    | Some n =>
        (Error 500 "Failed to clear chat history",
         Store.set_messages d user_id (drop (length (take n docs)) all))
    end.

End Chat.

(** ** [services/twilio_service.py] *)
Module Twilio.

Import OpenAIService.

(** [found_user] is what [_get_user_id_from_phone] returns and [new_user]
    what [_create_user_for_phone] returns; both catch their own exceptions. *)
Record env := {
  services : Chat.env;
  found_user : option string;
  new_user : string
}.

Definition suicide_resources : string := "

Important: If you're having thoughts of harming yourself, please contact the National Suicide Prevention Lifeline at 988 or 1-800-273-8255.".

Definition generic_resources : string := "

Resources: If you need immediate support, consider contacting a crisis helpline like 988 (National Suicide Prevention Lifeline).".

Definition processing_fallback : string :=
  "I'm having trouble processing your message right now. Please try again later.".

Definition resolve_user (e : env) : string :=
  match found_user e with
  | Some u => if Py.falsy u then new_user e else u
  | None => new_user e
  end.

Definition store (w : option Z) (d : Store.db) (user_id sender content message_type : string)
  : option Store.db :=
  match w with
  | Some t =>
      Some (Store.add_message d user_id
              {| Store.sender := sender; Store.content := content;
                 Store.timestamp := t; Store.channel := Some message_type |})
  | None => None
  end.

Definition process_incoming_message (e : env) (d : Store.db)
    (from_number body message_type : string) : string * Store.db :=
  let user_id := resolve_user e in
  match Store.stream (Chat.read_fault (services e)) (Chat.history_query d user_id) with
  | Store.Broken _ => (processing_fallback, d)
  | Store.Complete docs =>
      let chat_history := Chat.to_entry <$> docs in
      match store (Chat.user_write (services e)) d user_id "user" body message_type with
      | None => (processing_fallback, d)
      | Some d =>
          let ai_response :=
            get_chat_response (Chat.reply_call (services e)) body (Some chat_history) in
          let crisis_assessment :=
            assess_crisis_risk (Chat.json_loads (services e))
              (Chat.classifier_call (services e)) body in
          match Chat.high_risk crisis_assessment with
          | None => (processing_fallback, d)
          | Some high =>
              let ai_response :=
                if high
                then ai_response
                       +:+ Chat.resources suicide_resources generic_resources crisis_assessment
                else ai_response in
              match store (Chat.bot_write (services e)) d user_id "bot" ai_response message_type with
              | None => (processing_fallback, d)
              | Some d => (ai_response, d)
              end
          end
      end
  end.

End Twilio.

(** ** [routes/mood.py] *)
Module Mood.

(** The body of [POST /mood/log]; [score = JNull] when the field is absent. *)
Record request := {
  userId : string;
  score : json;
  label : option string;
  notes : string
}.

(** [now] is [datetime.now()] in seconds; [add] is the server time of the
    write, [None] when it raises; [query_ok] tells whether the query of
    [generate_mood_insights] goes through. *)
Record env := {
  now : Z;
  add : option Z;
  query_ok : bool
}.

Inductive direction := improving | declining | stable.

Record trend := { trend_direction : direction; trend_average : Qc }.

Record insights := { message : string; trends : option trend }.

Inductive response :=
  | Logged (message : string) (ins : insights)
  | Error (status : Z) (error : string).

Inductive int_result :=
  | Int (n : Z)
  | ValueError
  | TypeError.

(** [int(mood_score)] *)
Definition int (x : json) : int_result :=
  match x with
  | JInt n => Int n
  | JBool b => Int (if b then 1 else 0)
  | JFloat q => Int (Py.trunc q)
  | JStr s =>
      match Py.int_of_str s with
      | Some n => Int n
      | None => ValueError
      end
  | JNull | JArr _ | JObj _ => TypeError
  end.

Definition is_none (x : json) : bool :=
  match x with JNull => true | _ => false end.

(** [sum(scores) / len(scores)], kept exact; Python rounds it to the nearest
    double. *)
Definition mean (scores : list Z) : Qc :=
  Q2Qc (Qmake (Py.sum scores) (Pos.of_nat (length scores))).

Definition seven_days : Z := 7 * 86400.

Definition not_enough : insights :=
  {| message := "Log more moods to receive personalized insights"; trends := None |}.

Definition unable : insights :=
  {| message := "Unable to generate insights at this time"; trends := None |}.

(** The classification of [scores]; [None] stands for IndexError. *)
Definition classify (scores : list Z) : option direction :=
  if (3 <=? length scores)%nat then
    match Py.index scores (-1), Py.index scores 0, Py.index scores (-2) with
    | Some last, Some first, Some before_last =>
        if (last >? first) && (before_last >? first) then Some improving
        else if (last <? first) && (before_last <? first) then Some declining
        else Some stable
    | _, _, _ => None
    end
  else Some stable.

Definition describe (t : direction) (avg_score : Qc) : string :=
  match t with
  | improving => "Your mood appears to be improving over the past few days."
  | declining =>
      "Your mood seems to be lower than usual. Consider engaging in activities that typically boost your mood."
  | stable =>
      if Qle_bool (inject_Z 7) avg_score
      then "Your mood has been consistently positive recently."
      else if Qle_bool avg_score (inject_Z 4)
      then "Your mood has been lower recently. Consider reaching out for support if this continues."
      else "Your mood has been relatively stable."
  end.

(** [generate_mood_insights] from the point where [entries] is bound. *)
Definition compute_insight (entries : list Store.mood) : insights :=
  if (length entries <? 3)%nat then not_enough
  else
    let scores := (fun e => default 5 (Store.score e)) <$> entries in
    let avg_score := mean scores in
    match classify scores with
    | Some t =>
        {| message := describe t avg_score;
           trends := Some {| trend_direction := t; trend_average := avg_score |} |}
    | None => unable
    end.

(** [where('timestamp', '>=', seven_days_ago).order_by('timestamp')] *)
Definition window (e : env) (d : Store.db) (user_id : string) : list Store.mood :=
  Store.order_by Store.logged
    (filter (fun m => now e - seven_days <= Store.logged m) (Store.moods_of d user_id)).

Definition generate_mood_insights (e : env) (d : Store.db) (user_id : string) : insights :=
  if query_ok e then compute_insight (window e d user_id) else unable.

Definition log_mood (e : env) (d : Store.db) (r : request) : response * Store.db :=
  if Py.falsy (userId r) || is_none (score r)
  then (Error 400 "User ID and mood score are required", d)
  else
    match int (score r) with
    | Int mood_score =>
        if (mood_score <? 1) || (mood_score >? 10)
        then (Error 400 "Mood score must be between 1 and 10", d)
        else
          match add e with
          | Some t =>
              let d :=
                Store.add_mood d (userId r)
                  {| Store.score := Some mood_score; Store.label := label r;
                     Store.notes := notes r; Store.logged := t |} in
              (Logged "Mood logged successfully" (generate_mood_insights e d (userId r)), d)
          | None => (Error 500 "Failed to log mood", d)
          end
    | ValueError => (Error 400 "Invalid mood score format", d)
    | TypeError => (Error 500 "Failed to log mood", d)
    end.

(** An element of the list [get_mood_history] hands to
    [calculate_mood_statistics]; [row_score = None] when the key is absent. *)
Record row := {
  row_id : string;
  row_score : option Z;
  row_label : option string;
  row_notes : string;
  row_timestamp : option string
}.

Record statistics := {
  average : option Qc;
  highest : option Z;
  lowest : option Z;
  count : nat
}.

(** [max(scores)] and [min(scores)]; [None] on the empty list. *)
Definition maximum (scores : list Z) : option Z :=
  match scores with
  | [] => None
  | x :: l => Some (foldl Z.max x l)
  end.

Definition minimum (scores : list Z) : option Z :=
  match scores with
  | [] => None
  | x :: l => Some (foldl Z.min x l)
  end.

Definition calculate_mood_statistics (mood_entries : list row) : statistics :=
  match mood_entries with
  | [] => {| average := None; highest := None; lowest := None; count := 0 |}
  | _ =>
      let scores := (fun entry => default 0 (row_score entry)) <$> mood_entries in
      {| average := Some (mean scores);
         highest := maximum scores;
         lowest := minimum scores;
         count := length scores |}
  end.

End Mood.

(** ** Vocabulary of the specification *)
Module Spec.

Definition crisis_types : list string :=
  ["suicidal"; "self_harm"; "panic"; "other"; "none"].

Definition recommended_actions : list string :=
  ["emergency_services"; "crisis_line"; "professional_help"; "self_care"; "monitor"].

(** A CrisisAssessment of the data model: the three fields, a risk between 0
    and 10 and the two enumerations. *)
Definition well_formed (a : json) : bool :=
  match a with
  | JObj o =>
      match Json.get o "crisis_risk", Json.get o "crisis_type",
            Json.get o "recommended_action" with
      | Some (JInt r), Some (JStr t), Some (JStr act) =>
          (0 <=? r) && (r <=? 10)
          && existsb (String.eqb t) crisis_types
          && existsb (String.eqb act) recommended_actions
      | _, _, _ => false
      end
  | _ => false
  end.

(** [crisis_type] is suicidal or self_harm. *)
Definition self_harm (o : list (string * json)) : Prop :=
  Json.get o "crisis_type" = Some (JStr "suicidal")
  \/ Json.get o "crisis_type" = Some (JStr "self_harm").

(** The risk gate on an assessment with fields [o] and integer risk [r]:
    [reply] is [generated] with the block of the crisis type appended from
    risk 7 on, and [generated] itself below. *)
Definition risk_gated (suicide generic : string) (o : list (string * json)) (r : Z)
    (generated reply : string) : Prop :=
  (7 <= r -> self_harm o -> reply = generated +:+ suicide)
  /\ (7 <= r -> ~ self_harm o -> reply = generated +:+ generic)
  /\ (r < 7 -> reply = generated).

(** [h] is the highest (resp. lowest) of [scores]. *)
Definition is_max (h : Z) (scores : list Z) : Prop :=
  h ∈ scores /\ forall x, x ∈ scores -> x <= h.

Definition is_min (h : Z) (scores : list Z) : Prop :=
  h ∈ scores /\ forall x, x ∈ scores -> h <= x.

(** [a] is the arithmetic mean of the non-empty list [scores]. *)
Definition is_mean (a : Qc) (scores : list Z) : Prop :=
  (a * Q2Qc (inject_Z (Z.of_nat (length scores))) = Q2Qc (inject_Z (Py.sum scores)))%Qc.

End Spec.

(** ** Concrete requests, used to run the handlers *)
Module Scenario.

Definition quoted (s : string) : string :=
  String Json.dquote (s +:+ String Json.dquote EmptyString).

Definition field (k v : string) : string := quoted k +:+ ": " +:+ v.

(** The classifier answers with risk 8, type suicidal. *)
Definition suicidal_text : string :=
  "{" +:+ field "crisis_risk" "8" +:+ ", " +:+ field "crisis_type" (quoted "suicidal")
      +:+ ", " +:+ field "recommended_action" (quoted "emergency_services") +:+ "}".

(** The classifier answers with risk 8, type panic. *)
Definition panic_text : string :=
  "{" +:+ field "crisis_risk" "8" +:+ ", " +:+ field "crisis_type" (quoted "panic")
      +:+ ", " +:+ field "recommended_action" (quoted "crisis_line") +:+ "}".

(** The classifier answers with risk 6, type other. *)
Definition mild_text : string :=
  "{" +:+ field "crisis_risk" "6" +:+ ", " +:+ field "crisis_type" (quoted "other")
      +:+ ", " +:+ field "recommended_action" (quoted "self_care") +:+ "}".

Definition suicidal_fields : list (string * json) :=
  [("crisis_risk", JInt 8); ("crisis_type", JStr "suicidal");
   ("recommended_action", JStr "emergency_services")].

Definition panic_fields : list (string * json) :=
  [("crisis_risk", JInt 8); ("crisis_type", JStr "panic");
   ("recommended_action", JStr "crisis_line")].

Definition mild_fields : list (string * json) :=
  [("crisis_risk", JInt 6); ("crisis_type", JStr "other");
   ("recommended_action", JStr "self_care")].

(** Valid JSON that is not an assessment of the data model. *)
Definition vague_text : string := "{" +:+ field "crisis_risk" (quoted "high") +:+ "}".

Definition no_db : Store.db := {| Store.chats := ∅; Store.moods := ∅ |}.

(** Every service answers; the classifier says [classified]. *)
Definition healthy (classified : string) : Chat.env :=
  {| Chat.json_loads := Json.loads;
     Chat.reply_call := fun _ => Some " I hear you. ";
     Chat.classifier_call := fun _ => Some classified;
     Chat.read_fault := None;
     Chat.user_write := Some 100;
     Chat.bot_write := Some 101 |}.


(** The first write raises, everything else answers. *)
Definition write_down (classified : string) : Chat.env :=
  {| Chat.json_loads := Json.loads;
     Chat.reply_call := fun _ => Some " I hear you. ";
     Chat.classifier_call := fun _ => Some classified;
     Chat.read_fault := None;
     Chat.user_write := None;
     Chat.bot_write := Some 101 |}.

(** The services of [e] with other outcomes for the three store calls. *)
Definition with_store (e : Chat.env) (rf : option nat) (uw bw : option Z) : Chat.env :=
  {| Chat.json_loads := Chat.json_loads e;
     Chat.reply_call := Chat.reply_call e;
     Chat.classifier_call := Chat.classifier_call e;
     Chat.read_fault := rf;
     Chat.user_write := uw;
     Chat.bot_write := bw |}.

Definition sms (services : Chat.env) : Twilio.env :=
  {| Twilio.services := services;
     Twilio.found_user := Some "u1";
     Twilio.new_user := "temp-0" |}.

Definition said (t : Z) (sender content : string) : Store.message :=
  {| Store.sender := sender; Store.content := content;
     Store.timestamp := t; Store.channel := None |}.

(** Eleven stored messages, written at times 1 to 11. *)
Definition eleven : list Store.message :=
  [ said 1 "user" "m01"; said 2 "bot" "m02"; said 3 "user" "m03"; said 4 "bot" "m04";
    said 5 "user" "m05"; said 6 "bot" "m06"; said 7 "user" "m07"; said 8 "bot" "m08";
    said 9 "user" "m09"; said 10 "bot" "m10"; said 11 "user" "m11" ].

Definition chat_of (l : list Store.message) : Store.db :=
  {| Store.chats := {[ "u1" := l ]}; Store.moods := ∅ |}.

(** [n] stored messages, written at times 1 to [n]. *)
Definition many (n : nat) : list Store.message :=
  (fun i => said (Z.of_nat i) "user" "hello") <$> seq 1 n.

Definition mood_env : Mood.env :=
  {| Mood.now := 1000000; Mood.add := Some 1000000; Mood.query_ok := true |}.

Definition scored (s : Z) : Mood.request :=
  {| Mood.userId := "u1"; Mood.score := JInt s; Mood.label := Some "calm"; Mood.notes := "" |}.

(** The JSON number 10.9 as score. *)
Definition fractional : Mood.request :=
  {| Mood.userId := "u1"; Mood.score := JFloat (Q2Qc (109 # 10));
     Mood.label := Some "calm"; Mood.notes := "" |}.

Definition entry (t s : Z) : Store.mood :=
  {| Store.score := Some s; Store.label := None; Store.notes := ""; Store.logged := t |}.

(** Entries with the given scores, logged at times 0, 1, 2, ... *)
Definition entries (scores : list Z) : list Store.mood :=
  imap (fun i s => entry (Z.of_nat i) s) scores.

Definition rows (scores : list Z) : list Mood.row :=
  (fun s => {| Mood.row_id := "e"; Mood.row_score := Some s; Mood.row_label := None;
               Mood.row_notes := ""; Mood.row_timestamp := None |}) <$> scores.

End Scenario.

(** ** More Python string primitives *)
Module PyText.

(** [s.replace(old, new)] for a non-empty [old]: the occurrences are taken
    from left to right and do not overlap.  [skip] counts the characters of
    the occurrence just replaced that are still to be passed over. *)
Fixpoint replace_from (old new : string) (skip : nat) (s : string) : string :=
  match s with
  | EmptyString => EmptyString
  | String c r =>
      match skip with
      | S k => replace_from old new k r
      | O =>
          if String.prefix old s
          then new +:+ replace_from old new (String.length old - 1) r
          else String c (replace_from old new 0 r)
      end
  end.

Definition replace (old new s : string) : string := replace_from old new 0 s.

(** [sub in s] *)
Fixpoint contains (sub s : string) : bool :=
  String.prefix sub s
  || match s with
     | String _ r => contains sub r
     | EmptyString => false
     end.

(** [s[-n:]] for [n > 0] *)
Definition last_chars (n : nat) (s : string) : string :=
  String.substring (String.length s - n) n s.

End PyText.

(** ** The collections [users] and [userSettings] *)
Module Accounts.

(** The values the handlers store in these documents. *)
Inductive field :=
  | Text (s : string)
  | Flag (b : bool)
  | Time (t : Z).

(** A collection lists its documents, each under its id, in the order a
    query streams them. *)
Record db := {
  users : list (string * gmap string field);
  userSettings : list (string * gmap string field)
}.

(** [document(id).get()]; [None] when the document does not exist. *)
Fixpoint get (c : list (string * gmap string field)) (id : string)
  : option (gmap string field) :=
  match c with
  | [] => None
  | (id', doc) :: c' => if String.eqb id id' then Some doc else get c' id
  end.

(** [document(id).set(doc)]: replaces the document or creates it. *)
Fixpoint set (c : list (string * gmap string field)) (id : string)
    (doc : gmap string field) : list (string * gmap string field) :=
  match c with
  | [] => [(id, doc)]
  | (id', doc') :: c' =>
      if String.eqb id id' then (id, doc) :: c' else (id', doc') :: set c' id doc
  end.

(** [document(id).update(changes)]: the fields of [changes] replace those of
    the document; [None] (NotFound) when the document does not exist. *)
Definition update (c : list (string * gmap string field)) (id : string)
    (changes : gmap string field) : option (list (string * gmap string field)) :=
  match get c id with
  | Some doc => Some (set c id (changes ∪ doc))
  | None => None
  end.

End Accounts.

(** ** [services/twilio_service.py]: users, and the two webhooks *)
Module TwilioService.

(** [services] answers the calls of the turn itself.  [lookup_ok] tells
    whether the query by phone number goes through; [fresh_id] is the id of
    [document()], [user_write] the server time of the write of the user
    document ([None] when it raises), [settings_write] whether the write of
    the settings goes through, [uuid4] the text of [uuid.uuid4()]. *)
Record env := {
  services : Chat.env;
  lookup_ok : bool;
  fresh_id : string;
  user_write : option Z;
  settings_write : bool;
  uuid4 : string
}.

(** [phone_number.replace('whatsapp:', '')] *)
Definition clean (phone_number : string) : string :=
  PyText.replace "whatsapp:" "" phone_number.

Definition has_phone (clean_number : string) (entry : string * gmap string Accounts.field)
  : bool :=
  match snd entry !! "phoneNumber" with
  | Some (Accounts.Text s) => String.eqb s clean_number
  | _ => false
  end.

(** [_get_user_id_from_phone] *)
Definition get_user_id_from_phone (e : env) (a : Accounts.db) (phone_number : string)
  : option string :=
  if lookup_ok e
  then fst <$> List.find (has_phone (clean phone_number)) (Accounts.users a)
  else None.

Definition user_data (phone_number : string) (t : Z) : gmap string Accounts.field :=
  let clean_number := clean phone_number in
  <["phoneNumber" := Accounts.Text clean_number]>
  (<["channel" :=
       Accounts.Text (if PyText.contains "whatsapp:" phone_number then "whatsapp" else "sms")]>
  (<["created" := Accounts.Time t]>
  (<["lastInteraction" := Accounts.Time t]>
  (<["displayName" := Accounts.Text ("User-" +:+ PyText.last_chars 4 clean_number)]> ∅)))).

Definition default_settings : gmap string Accounts.field :=
  <["notifications" := Accounts.Flag true]>
  (<["moodTrackingEnabled" := Accounts.Flag true]> ∅).

(** [_create_user_for_phone] *)
Definition create_user_for_phone (e : env) (a : Accounts.db) (phone_number : string)
  : string * Accounts.db :=
  match user_write e with
  | Some t =>
      let a :=
        {| Accounts.users := Accounts.set (Accounts.users a) (fresh_id e) (user_data phone_number t);
           Accounts.userSettings := Accounts.userSettings a |} in
      if settings_write e
      then (fresh_id e,
            {| Accounts.users := Accounts.users a;
               Accounts.userSettings :=
                 Accounts.set (Accounts.userSettings a) (fresh_id e) default_settings |})
      else ("temp-" +:+ uuid4 e, a)
  | None => ("temp-" +:+ uuid4 e, a)
  end.

(** [process_incoming_message] with its first lines: the user is looked up
    by phone number and created when the lookup gives nothing. *)
Definition process_incoming_message (e : env) (a : Accounts.db) (d : Store.db)
    (from_number body message_type : string) : string * (Accounts.db * Store.db) :=
  let found := get_user_id_from_phone e a from_number in
  let missing := match found with Some u => Py.falsy u | None => true end in
  let created := if missing then create_user_for_phone e a from_number else ("", a) in
  let turn :=
    Twilio.process_incoming_message
      {| Twilio.services := services e; Twilio.found_user := found;
         Twilio.new_user := fst created |}
      d from_number body message_type in
  (fst turn, (snd created, snd turn)).

(** What a webhook answers: body, status, and content type when it sets one. *)
Record http := { body : string; status : Z; content_type : option string }.

Definition quoted (s : string) : string :=
  String Json.dquote (s +:+ String Json.dquote EmptyString).

(** The f-string of the two webhooks. *)
Definition twiml (response : string) : string :=
  "<?xml version=" +:+ quoted "1.0" +:+ " encoding=" +:+ quoted "UTF-8" +:+ "?>
    <Response>
        <Message>" +:+ response +:+ "</Message>
    </Response>
    ".

Definition webhook (message_type : string) (e : env) (a : Accounts.db) (d : Store.db)
    (from_number body : string) : http * (Accounts.db * Store.db) :=
  if Py.falsy from_number || Py.falsy body
  then ({| body := "Invalid request"; status := 400; content_type := None |}, (a, d))
  else
    let r := process_incoming_message e a d from_number body message_type in
    ({| body := twiml (fst r); status := 200; content_type := Some "text/xml" |}, snd r).

Definition sms_webhook := webhook "sms".

Definition whatsapp_webhook := webhook "whatsapp".

End TwilioService.

(** ** [routes/chat.py]: [get_chat_history] *)
Module ChatHistory.

(** [fault] is the point where the stream breaks, if it does; [doc_id] is the
    id Firestore gave a document and [isoformat] the text of a time. *)
Record env := {
  fault : option nat;
  doc_id : Store.message -> string;
  isoformat : Z -> string
}.

Record item := {
  id : string;
  sender : string;
  content : string;
  timestamp : string
}.

Inductive response :=
  | History (history : list item)
  | Error (status : Z) (error : string).

Definition to_item (e : env) (msg : Store.message) : item :=
  {| id := doc_id e msg;
     sender := Store.sender msg;
     content := Store.content msg;
     timestamp := isoformat e (Store.timestamp msg) |}.

(** [order_by('timestamp', direction='asc')], without a limit. *)
Definition query (d : Store.db) (user_id : string) : list Store.message :=
  Store.order_by Store.timestamp (Store.messages_of d user_id).

Definition get_chat_history (e : env) (d : Store.db) (user_id : string) : response :=
  if Py.falsy user_id
  then Error 400 "User ID is required"
  else
    match Store.stream (fault e) (query d user_id) with
    | Store.Complete docs => History (to_item e <$> docs)
    | Store.Broken _ => Error 500 "Failed to retrieve chat history"
    end.

End ChatHistory.

(** ** [routes/mood.py]: [get_mood_history] *)
Module MoodHistory.

(** The query string; a parameter that is absent is the empty text. *)
Record args := { days : string; start_date : string; end_date : string }.

(** [now] is [datetime.now()] in seconds since 1970; [fromisoformat] is
    [datetime.fromisoformat], [None] being its ValueError; [query_ok] tells
    whether the query goes through. *)
Record env := {
  now : Z;
  fromisoformat : string -> option Z;
  query_ok : bool;
  doc_id : Store.mood -> string;
  isoformat : Z -> string
}.

Inductive response :=
  | Entries (entries : list Mood.row) (statistics : Mood.statistics)
  | Error (status : Z) (error : string).

(** What the lines that build the filters come to. *)
Inductive filters :=
  | Range (since until : option Z)
  | ValueError
  | OverflowError.

(** The first and the last second a [datetime] can hold. *)
Definition datetime_min : Z := -62135596800.
Definition datetime_max : Z := 253402300799.

(** [datetime.now() - timedelta(days=days)] *)
Definition days_ago (e : env) (n : Z) : option Z :=
  if (Z.abs n <=? 999999999)
     && (datetime_min <=? now e - 86400 * n) && (now e - 86400 * n <=? datetime_max)
  then Some (now e - 86400 * n)
  else None.

(** [datetime.fromisoformat(s.replace('Z', '+00:00'))] *)
Definition parse (e : env) (s : string) : option Z :=
  fromisoformat e (PyText.replace "Z" "+00:00" s).

Definition date_filters (e : env) (q : args) : filters :=
  if negb (Py.falsy (days q)) then
    match Py.int_of_str (days q) with
    | Some n =>
        match days_ago e n with
        | Some start_time => Range (Some start_time) None
        | None => OverflowError
        end
    | None => ValueError
    end
  else if negb (Py.falsy (start_date q)) then
    match parse e (start_date q) with
    | Some start_time =>
        if negb (Py.falsy (end_date q)) then
          match parse e (end_date q) with
          | Some end_time => Range (Some start_time) (Some end_time)
          | None => ValueError
          end
        else Range (Some start_time) None
    | None => ValueError
    end
  else Range None None.

Definition within (since until : option Z) (m : Store.mood) : bool :=
  match since with Some t => t <=? Store.logged m | None => true end
  && match until with Some t => Store.logged m <=? t | None => true end.

(** The filtered query, [order_by('timestamp', direction='desc')]. *)
Definition query (since until : option Z) (d : Store.db) (user_id : string)
  : list Store.mood :=
  rev (Store.order_by Store.logged
         (List.filter (within since until) (Store.moods_of d user_id))).

(** The dictionary built for one entry.  Its score is kept only when the
    document has one: [entry_data.get('score')] is [None] otherwise, for
    which see [get_mood_history]. *)
Definition to_row (e : env) (m : Store.mood) : Mood.row :=
  {| Mood.row_id := doc_id e m;
     Mood.row_score := Store.score m;
     Mood.row_label := Store.label m;
     Mood.row_notes := Store.notes m;
     Mood.row_timestamp := Some (isoformat e (Store.logged m)) |}.

Definition has_score (m : Store.mood) : bool :=
  match Store.score m with Some _ => true | None => false end.

(** A document without a score puts [None] under the key ['score'], and
    [sum] raises on it: the request ends in the last [except]. *)
Definition get_mood_history (e : env) (d : Store.db) (user_id : string) (q : args)
  : response :=
  if Py.falsy user_id
  then Error 400 "User ID is required"
  else
    match date_filters e q with
    | Range since until =>
        if query_ok e then
          let docs := query since until d user_id in
          if forallb has_score docs
          then Entries (to_row e <$> docs)
                 (Mood.calculate_mood_statistics (to_row e <$> docs))
          else Error 500 "Failed to retrieve mood history"
        else Error 500 "Failed to retrieve mood history"
    | ValueError => Error 400 "Invalid date format"
    | OverflowError => Error 500 "Failed to retrieve mood history"
    end.

End MoodHistory.

(** ** [routes/auth.py] *)
Module Auth.

(** What a call answers: a value, or an exception with its text. *)
Inductive result (A : Type) :=
  | Ok (a : A)
  | Raise (msg : string).
Arguments Ok {A} a.
Arguments Raise {A} msg.

(** [create_user] and [create_custom_token] are the two calls to
    [firebase_admin.auth] of [register_user], [verify_id_token] the one of
    [verify_token]: it answers with the uid (never empty) and the email of
    the token.  The other fields are the outcomes of the store calls, in the
    order of the code; a write gives the server time. *)
Record env := {
  create_user : string -> string -> string -> result string;
  profile_write : result Z;
  settings_write : result unit;
  create_custom_token : string -> result string;
  verify_id_token : string -> result (string * option string);
  login_write : result Z;
  profile_read : result unit;
  settings_read : result unit
}.

Inductive response :=
  | Registered (userId token : string)
  | Verified (userId : string) (email : option string)
  | Profile (profile settings : gmap string Accounts.field)
  | Error (status : Z) (error : string)
  | InvalidToken.

(** The [except] of [register_user]. *)
Definition registration_error (error_message : string) : response :=
  if PyText.contains "EMAIL_EXISTS" error_message
  then Error 400 "Email already in use"
  else Error 500 "Failed to register user".

(** [display_name or email] *)
Definition name_or (display_name email : string) : string :=
  if Py.falsy display_name then email else display_name.

Definition new_profile (email display_name : string) (t : Z) : gmap string Accounts.field :=
  <["email" := Accounts.Text email]>
  (<["displayName" := Accounts.Text (name_or display_name email)]>
  (<["created" := Accounts.Time t]>
  (<["lastLogin" := Accounts.Time t]> ∅))).

Definition initial_settings : gmap string Accounts.field :=
  <["notifications" := Accounts.Flag true]>
  (<["theme" := Accounts.Text "light"]>
  (<["moodTrackingEnabled" := Accounts.Flag true]>
  (<["goalReminders" := Accounts.Flag false]> ∅))).

Definition register_user (e : env) (a : Accounts.db) (email password display_name : string)
  : response * Accounts.db :=
  if Py.falsy email || Py.falsy password
  then (Error 400 "Email and password are required", a)
  else
    match create_user e email password (name_or display_name email) with
    | Raise msg => (registration_error msg, a)
    | Ok uid =>
        match profile_write e with
        | Raise msg => (registration_error msg, a)
        | Ok t =>
            let a :=
              {| Accounts.users :=
                   Accounts.set (Accounts.users a) uid (new_profile email display_name t);
                 Accounts.userSettings := Accounts.userSettings a |} in
            match settings_write e with
            | Raise msg => (registration_error msg, a)
            | Ok _ =>
                let a :=
                  {| Accounts.users := Accounts.users a;
                     Accounts.userSettings :=
                       Accounts.set (Accounts.userSettings a) uid initial_settings |} in
                match create_custom_token e uid with
                | Raise msg => (registration_error msg, a)
                | Ok token => (Registered uid token, a)
                end
            end
        end
    end.

Definition verify_token (e : env) (a : Accounts.db) (id_token : string)
  : response * Accounts.db :=
  if Py.falsy id_token
  then (Error 400 "ID token is required", a)
  else
    match verify_id_token e id_token with
    | Raise _ => (InvalidToken, a)
    | Ok (uid, email) =>
        match login_write e with
        | Raise _ => (InvalidToken, a)
        | Ok t =>
            match Accounts.update (Accounts.users a) uid
                    (<["lastLogin" := Accounts.Time t]> ∅) with
            | Some users =>
                (Verified uid email,
                 {| Accounts.users := users;
                    Accounts.userSettings := Accounts.userSettings a |})
            | None => (InvalidToken, a)
            end
        end
    end.

Definition get_user_profile (e : env) (a : Accounts.db) (user_id : string) : response :=
  if Py.falsy user_id
  then Error 400 "User ID is required"
  else
    match profile_read e with
    | Raise _ => Error 500 "Failed to retrieve user profile"
    | Ok _ =>
        match Accounts.get (Accounts.users a) user_id with
        | None => Error 404 "User not found"
        | Some user_info =>
            match settings_read e with
            | Raise _ => Error 500 "Failed to retrieve user profile"
            | Ok _ =>
                let settings := default ∅ (Accounts.get (Accounts.userSettings a) user_id) in
                Profile (delete "passwordHash" user_info) settings
            end
        end
    end.

End Auth.

(** ** More concrete requests *)
Module Cases.

(** [k] calls of [clear_chat_history] in a row, the store working. *)
Definition clear_repeatedly (k : nat) (d : Store.db) (user_id : string) : Store.db :=
  Nat.iter k (fun d => snd (Chat.clear_chat_history None d user_id)) d.

(** The store answers; a document is identified by its content, and a time
    is shown as earlier (before 100) or now. *)
Definition reader : ChatHistory.env :=
  {| ChatHistory.fault := None;
     ChatHistory.doc_id := fun m => Store.content m;
     ChatHistory.isoformat := fun t => if t <? 100 then "earlier" else "now" |}.

Definition sms_services (classified : string) (w1 w2 : option Z) : TwilioService.env :=
  {| TwilioService.services :=
       Scenario.with_store (Scenario.healthy classified) None w1 w2;
     TwilioService.lookup_ok := true;
     TwilioService.fresh_id := "u7";
     TwilioService.user_write := Some 50;
     TwilioService.settings_write := true;
     TwilioService.uuid4 := "0000" |}.

(** As [sms_services], with the write of the settings raising. *)
Definition sms_settings_down : TwilioService.env :=
  {| TwilioService.services := Scenario.healthy Scenario.mild_text;
     TwilioService.lookup_ok := true;
     TwilioService.fresh_id := "u7";
     TwilioService.user_write := Some 50;
     TwilioService.settings_write := false;
     TwilioService.uuid4 := "0000" |}.

Definition no_accounts : Accounts.db :=
  {| Accounts.users := []; Accounts.userSettings := [] |}.

(** Moods of user u1 with the given scores, logged at times 0, 1, 2, ... *)
Definition moods_of_scores (scores : list Z) : Store.db :=
  {| Store.chats := ∅; Store.moods := {[ "u1" := Scenario.entries scores ]} |}.

(** A request at time 100, within seven days of the entries above. *)
Definition soon : Mood.env :=
  {| Mood.now := 100; Mood.add := Some 100; Mood.query_ok := true |}.

Definition unscored (t : Z) : Store.mood :=
  {| Store.score := None; Store.label := None; Store.notes := ""; Store.logged := t |}.

Definition mood_reader : MoodHistory.env :=
  {| MoodHistory.now := 1000000;
     MoodHistory.fromisoformat := fun _ => None;
     MoodHistory.query_ok := true;
     MoodHistory.doc_id := fun _ => "e";
     MoodHistory.isoformat := fun _ => "t" |}.

Definition all_entries : MoodHistory.args :=
  {| MoodHistory.days := ""; MoodHistory.start_date := ""; MoodHistory.end_date := "" |}.

(** Every call of [routes/auth.py] goes through. *)
Definition auth_ok : Auth.env :=
  {| Auth.create_user := fun _ _ _ => Auth.Ok "uid1";
     Auth.profile_write := Auth.Ok 10;
     Auth.settings_write := Auth.Ok tt;
     Auth.create_custom_token := fun _ => Auth.Ok "token1";
     Auth.verify_id_token := fun _ => Auth.Ok ("uid1", Some "a@example.org");
     Auth.login_write := Auth.Ok 20;
     Auth.profile_read := Auth.Ok tt;
     Auth.settings_read := Auth.Ok tt |}.

(** One user whose document carries a password hash. *)
Definition with_hash : Accounts.db :=
  {| Accounts.users :=
       [("uid1", <["email" := Accounts.Text "a@example.org"]>
                 (<["passwordHash" := Accounts.Text "5f4dcc"]> ∅))];
     Accounts.userSettings := [] |}.

End Cases.

(** * Properties *)

(** ** The Python primitives on examples *)

Example strip_examples :
  Py.strip "  hi there
 " = "hi there" /\ Py.strip " I hear you. " = "I hear you." /\ Py.strip "   " = "".
Proof. repeat split; reflexivity. Qed.

Example int_of_str_examples :
  Py.int_of_str " 1_0 " = Some 10 /\ Py.int_of_str "7.5" = None
  /\ Py.int_of_str "-3" = Some (-3) /\ Py.int_of_str "1__0" = None
  /\ Py.int_of_str "" = None /\ Py.int_of_str "_1" = None
  /\ Py.int_of_str "1_" = None /\ Py.int_of_str "007" = Some 7
  /\ Py.int_of_str "seven" = None.
Proof. repeat split; reflexivity. Qed.

Example index_examples :
  Py.index [1; 2; 3] (-1) = Some 3 /\ Py.index [1; 2; 3] (-2) = Some 2
  /\ Py.index [1; 2; 3] (-4) = None /\ Py.index [1; 2; 3] 0 = Some 1
  /\ Py.index [1; 2; 3] 3 = None.
Proof. repeat split; reflexivity. Qed.

Example last_n_examples :
  Py.last_n 2 [1; 2; 3] = [2; 3] /\ Py.last_n 5 [1; 2; 3] = [1; 2; 3].
Proof. repeat split; reflexivity. Qed.

Example trunc_examples :
  Py.trunc (Q2Qc (109 # 10)) = 10 /\ Py.trunc (Q2Qc (37 # 10)) = 3
  /\ Py.trunc (Q2Qc (-5 # 10)) = 0 /\ Py.trunc (Q2Qc (-37 # 10)) = -3.
Proof. repeat split; reflexivity. Qed.

Example loads_examples :
  Json.loads Scenario.suicidal_text = Some (JObj Scenario.suicidal_fields)
  /\ Json.loads Scenario.panic_text = Some (JObj Scenario.panic_fields)
  /\ Json.loads Scenario.mild_text = Some (JObj Scenario.mild_fields)
  /\ Json.loads Scenario.vague_text = Some (JObj [("crisis_risk", JStr "high")])
  /\ Json.loads "[1, [], {}, null, true ,false,-12]  "
     = Some (JArr [JInt 1; JArr []; JObj []; JNull; JBool true; JBool false; JInt (-12)])
  /\ Json.loads "I cannot assess this." = None
  /\ Json.loads "01" = None /\ Json.loads "[1,]" = None
  /\ Json.loads "" = None /\ Json.loads "{} x" = None.
Proof. vm_compute. repeat split; reflexivity. Qed.

(** ** Shared facts about the risk gate *)

Lemma falsy_nonempty (s : string) : s <> "" -> Py.falsy s = false.
Proof. destruct s; [congruence | reflexivity]. Qed.

Lemma high_risk_int (o : list (string * json)) (r : Z) :
  Json.get o "crisis_risk" = Some (JInt r) ->
  Chat.high_risk (JObj o) = Some (7 <=? r).
Proof. intros Hr. unfold Chat.high_risk. rewrite Hr. reflexivity. Qed.

Lemma high_risk_absent (o : list (string * json)) :
  Json.get o "crisis_risk" = None -> Chat.high_risk (JObj o) = Some false.
Proof. intros Hr. unfold Chat.high_risk. rewrite Hr. reflexivity. Qed.

Lemma self_harm_type_spec (o : list (string * json)) :
  Chat.self_harm_type (JObj o) = true <-> Spec.self_harm o.
Proof.
  unfold Chat.self_harm_type, Spec.self_harm.
  destruct (Json.get o "crisis_type") as [[| | | |t| |]|]; simpl;
    try (split; [discriminate | intros [H | H]; discriminate]).
  rewrite orb_true_iff, !String.eqb_eq.
  split; intros [H | H]; [left | right | left | right]; congruence.
Qed.

Lemma self_harm_type_not (o : list (string * json)) :
  ~ Spec.self_harm o -> Chat.self_harm_type (JObj o) = false.
Proof.
  intros Hn. destruct (Chat.self_harm_type (JObj o)) eqn:E; [|reflexivity].
  apply self_harm_type_spec in E. contradiction.
Qed.

(** The block chosen by [resources] is the one the specification names. *)
Lemma gate_risk_gated (suicide generic : string) (o : list (string * json)) (r : Z)
    (generated : string) :
  Spec.risk_gated suicide generic o r generated
    (if 7 <=? r
     then generated +:+ Chat.resources suicide generic (JObj o)
     else generated).
Proof.
  unfold Spec.risk_gated, Chat.resources.
  repeat split.
  - intros Hr Hs. apply Z.leb_le in Hr. rewrite Hr.
    apply self_harm_type_spec in Hs. rewrite Hs. reflexivity.
  - intros Hr Hs. apply Z.leb_le in Hr. rewrite Hr.
    rewrite (self_harm_type_not _ Hs). reflexivity.
  - intros Hr. apply Z.leb_gt in Hr. rewrite Hr. reflexivity.
Qed.

(** ** [send_message]: what the caller receives *)

(** The response is a function of the history read, the message and the two
    model calls; the outcomes of the two writes do not occur in it. *)
Lemma send_message_response (e : Chat.env) (d : Store.db) (user_id message : string) :
  user_id <> "" -> message <> "" ->
  fst (Chat.send_message e d user_id message) =
    let crisis_assessment :=
      OpenAIService.assess_crisis_risk (Chat.json_loads e) (Chat.classifier_call e) message in
    let generated :=
      OpenAIService.get_chat_response (Chat.reply_call e) message
        (Some (Chat.fetch_history e d user_id)) in
    match Chat.high_risk crisis_assessment with
    | Some high =>
        Chat.Reply
          (if high
           then generated
                  +:+ Chat.resources Chat.suicide_resources Chat.generic_resources
                        crisis_assessment
           else generated)
          crisis_assessment
    | None => Chat.Unhandled
    end.
Proof.
  intros Hu Hm. unfold Chat.send_message.
  rewrite (falsy_nonempty _ Hu), (falsy_nonempty _ Hm). simpl.
  destruct (Chat.high_risk _); reflexivity.
Qed.

Lemma send_message_missing_parameters (e : Chat.env) (d : Store.db) (user_id message : string) :
  user_id = "" \/ message = "" ->
  Chat.send_message e d user_id message = (Chat.Error 400 "Missing required parameters", d).
Proof.
  intros [-> | ->]; unfold Chat.send_message; simpl; [reflexivity|].
  rewrite orb_true_r. reflexivity.
Qed.

(** With both writes going through, the turn appends the message and then
    the reply to the conversation of the user. *)
Lemma send_message_persists (e : Chat.env) (d : Store.db) (user_id message : string)
    (reply : string) (a : json) (t1 t2 : Z) :
  Chat.user_write e = Some t1 -> Chat.bot_write e = Some t2 ->
  fst (Chat.send_message e d user_id message) = Chat.Reply reply a ->
  Store.messages_of (snd (Chat.send_message e d user_id message)) user_id
    = Store.messages_of d user_id
        ++ [ {| Store.sender := "user"; Store.content := message;
                Store.timestamp := t1; Store.channel := None |};
             {| Store.sender := "bot"; Store.content := reply;
                Store.timestamp := t2; Store.channel := None |} ].
Proof.
  intros Hw1 Hw2. unfold Chat.send_message.
  destruct (Py.falsy user_id || Py.falsy message); [discriminate|].
  destruct (Chat.high_risk _) as [high|]; [|discriminate].
  simpl. intros [= <- _]. unfold Chat.store. rewrite Hw1, Hw2.
  unfold Store.messages_of at 1. simpl. rewrite lookup_insert_eq. simpl.
  unfold Store.messages_of at 1. simpl. rewrite lookup_insert_eq. simpl.
  rewrite <- app_assoc. reflexivity.
Qed.





(** ** [process_incoming_message]: what the sender receives *)

(** With the three store calls going through, the SMS and WhatsApp turn
    returns the gated reply. *)
Lemma process_incoming_message_response (e : Twilio.env) (d : Store.db)
    (from_number body message_type : string) :
  Chat.read_fault (Twilio.services e) = None ->
  Chat.user_write (Twilio.services e) <> None ->
  Chat.bot_write (Twilio.services e) <> None ->
  fst (Twilio.process_incoming_message e d from_number body message_type) =
    let crisis_assessment :=
      OpenAIService.assess_crisis_risk (Chat.json_loads (Twilio.services e))
        (Chat.classifier_call (Twilio.services e)) body in
    let generated :=
      OpenAIService.get_chat_response (Chat.reply_call (Twilio.services e)) body
        (Some (Chat.to_entry <$> Chat.history_query d (Twilio.resolve_user e))) in
    match Chat.high_risk crisis_assessment with
    | Some high =>
        if high
        then generated
               +:+ Chat.resources Twilio.suicide_resources Twilio.generic_resources
                     crisis_assessment
        else generated
    | None => Twilio.processing_fallback
    end.
Proof.
  intros Hread Huw Hbw. unfold Twilio.process_incoming_message.
  rewrite Hread. simpl.
  destruct (Chat.user_write (Twilio.services e)) as [t1|]; [|congruence].
  destruct (Chat.bot_write (Twilio.services e)) as [t2|]; [|congruence].
  simpl. destruct (Chat.high_risk _); reflexivity.
Qed.

(** Any store call that raises sends the turn to the handler's [except]. *)
Lemma process_incoming_message_store_failure (e : Twilio.env) (d : Store.db)
    (from_number body message_type : string) :
  Chat.read_fault (Twilio.services e) <> None
  \/ Chat.user_write (Twilio.services e) = None
  \/ Chat.bot_write (Twilio.services e) = None ->
  fst (Twilio.process_incoming_message e d from_number body message_type)
    = Twilio.processing_fallback.
Proof.
  intros H. unfold Twilio.process_incoming_message.
  destruct (Chat.read_fault (Twilio.services e)) as [n|]; [reflexivity|]. simpl.
  destruct (Chat.user_write (Twilio.services e)) as [t1|]; [|reflexivity]. simpl.
  destruct (Chat.high_risk _) as [high|]; [|reflexivity].
  destruct (Chat.bot_write (Twilio.services e)) as [t2|]; [|reflexivity].
  destruct H as [H | [H | H]]; congruence.
Qed.

(** An SMS turn on which the classifier reports risk 8, suicidal, the reply
    call answers, and the write of the reply raises: the sender receives the
    processing-failure sentence, not the generated reply followed by the
    suicide resources. *)
Lemma sms_gate_lost_on_write_failure :
  OpenAIService.assess_crisis_risk Json.loads
    (Chat.classifier_call
       (Scenario.with_store (Scenario.healthy Scenario.suicidal_text) None (Some 100) None))
    "I want to end it" = JObj Scenario.suicidal_fields
  /\ OpenAIService.get_chat_response
       (Chat.reply_call
          (Scenario.with_store (Scenario.healthy Scenario.suicidal_text) None (Some 100) None))
       "I want to end it"
       (Some (Chat.to_entry <$> Chat.history_query Scenario.no_db "u1")) = "I hear you."
  /\ fst (Twilio.process_incoming_message
            (Scenario.sms
               (Scenario.with_store (Scenario.healthy Scenario.suicidal_text)
                  None (Some 100) None))
            Scenario.no_db "+15550100" "I want to end it" "sms")
     = Twilio.processing_fallback
  /\ fst (Twilio.process_incoming_message
            (Scenario.sms
               (Scenario.with_store (Scenario.healthy Scenario.suicidal_text)
                  None (Some 100) None))
            Scenario.no_db "+15550100" "I want to end it" "sms")
     <> "I hear you." +:+ Twilio.suicide_resources.
Proof.
  repeat split; try (vm_compute; reflexivity).
  vm_compute. discriminate.
Qed.

(** C2, as the code has it: on every web turn whose assessment carries an
    integer crisis_risk, the reply returned is the generated reply with
    exactly one resource block appended when crisis_risk >= 7 (the suicide
    and self-harm text for the types suicidal and self_harm, the generic text
    for any other type) and the generated reply alone when crisis_risk < 7.
    The same holds on an SMS or WhatsApp turn, with the two texts of that
    handler, when the history read and both writes go through; when one of
    them raises, the turn returns the processing-failure sentence with
    nothing appended, whatever the risk. *)
Theorem risk_gate_appends_resources (e : Twilio.env) (d : Store.db)
    (user_id from_number message message_type : string)
    (o : list (string * json)) (r : Z) :
  user_id <> "" -> message <> "" ->
  OpenAIService.assess_crisis_risk (Chat.json_loads (Twilio.services e))
    (Chat.classifier_call (Twilio.services e)) message = JObj o ->
  Json.get o "crisis_risk" = Some (JInt r) ->
  (exists reply,
     fst (Chat.send_message (Twilio.services e) d user_id message)
       = Chat.Reply reply (JObj o)
     /\ Spec.risk_gated Chat.suicide_resources Chat.generic_resources o r
          (OpenAIService.get_chat_response (Chat.reply_call (Twilio.services e)) message
             (Some (Chat.fetch_history (Twilio.services e) d user_id)))
          reply)
  /\ (Chat.read_fault (Twilio.services e) = None ->
      Chat.user_write (Twilio.services e) <> None ->
      Chat.bot_write (Twilio.services e) <> None ->
      Spec.risk_gated Twilio.suicide_resources Twilio.generic_resources o r
        (OpenAIService.get_chat_response (Chat.reply_call (Twilio.services e)) message
           (Some (Chat.to_entry <$> Chat.history_query d (Twilio.resolve_user e))))
        (fst (Twilio.process_incoming_message e d from_number message message_type)))
  /\ (Chat.read_fault (Twilio.services e) <> None
      \/ Chat.user_write (Twilio.services e) = None
      \/ Chat.bot_write (Twilio.services e) = None ->
      fst (Twilio.process_incoming_message e d from_number message message_type)
        = Twilio.processing_fallback).
Proof.
  intros Hu Hm Ha Hr. split; [|split].
  - rewrite (send_message_response _ _ _ _ Hu Hm). cbv zeta.
    rewrite Ha, (high_risk_int _ _ Hr).
    eexists. split; [reflexivity|]. apply gate_risk_gated.
  - intros Hread Huw Hbw.
    rewrite (process_incoming_message_response _ _ _ _ _ Hread Huw Hbw). cbv zeta.
    rewrite Ha, (high_risk_int _ _ Hr). apply gate_risk_gated.
  - intros Hfail. apply process_incoming_message_store_failure. exact Hfail.
Qed.

Lemma risk_gate_appends_resources_witness :
  (exists reply,
     fst (Chat.send_message (Scenario.healthy Scenario.panic_text) Scenario.no_db
            "u1" "I cannot breathe")
       = Chat.Reply reply (JObj Scenario.panic_fields)
     /\ Spec.risk_gated Chat.suicide_resources Chat.generic_resources
          Scenario.panic_fields 8 "I hear you." reply)
  /\ Spec.risk_gated Twilio.suicide_resources Twilio.generic_resources
       Scenario.panic_fields 8 "I hear you."
       (fst (Twilio.process_incoming_message
               (Scenario.sms (Scenario.healthy Scenario.panic_text)) Scenario.no_db
               "+15550100" "I cannot breathe" "sms"))
  /\ fst (Twilio.process_incoming_message
            (Scenario.sms
               (Scenario.with_store (Scenario.healthy Scenario.panic_text)
                  None (Some 100) None))
            Scenario.no_db "+15550100" "I cannot breathe" "sms")
     = Twilio.processing_fallback.
Proof.
  destruct (risk_gate_appends_resources
              (Scenario.sms (Scenario.healthy Scenario.panic_text)) Scenario.no_db
              "u1" "+15550100" "I cannot breathe" "sms" Scenario.panic_fields 8)
    as (Hweb & Hsms & _).
  - discriminate.
  - discriminate.
  - vm_compute. reflexivity.
  - reflexivity.
  - split; [exact Hweb|]. split.
    + apply Hsms; [reflexivity | discriminate | discriminate].
    + destruct (risk_gate_appends_resources
                  (Scenario.sms
                     (Scenario.with_store (Scenario.healthy Scenario.panic_text)
                        None (Some 100) None))
                  Scenario.no_db "u1" "+15550100" "I cannot breathe" "sms"
                  Scenario.panic_fields 8)
        as (_ & _ & Hfail).
      * discriminate.
      * discriminate.
      * vm_compute. reflexivity.
      * reflexivity.
      * apply Hfail. right. right. reflexivity.
Defined.

(** The three turns the specification lists: risk 8 suicidal, risk 8 panic,
    risk 6. *)
Example gate_examples :
  fst (Chat.send_message (Scenario.healthy Scenario.suicidal_text) Scenario.no_db "u1" "hi")
    = Chat.Reply ("I hear you." +:+ Chat.suicide_resources) (JObj Scenario.suicidal_fields)
  /\ fst (Chat.send_message (Scenario.healthy Scenario.panic_text) Scenario.no_db "u1" "hi")
     = Chat.Reply ("I hear you." +:+ Chat.generic_resources) (JObj Scenario.panic_fields)
  /\ fst (Chat.send_message (Scenario.healthy Scenario.mild_text) Scenario.no_db "u1" "hi")
     = Chat.Reply "I hear you." (JObj Scenario.mild_fields)
  /\ fst (Twilio.process_incoming_message
            (Scenario.sms (Scenario.healthy Scenario.suicidal_text)) Scenario.no_db
            "+15550100" "hi" "sms")
     = "I hear you." +:+ Twilio.suicide_resources
  /\ fst (Twilio.process_incoming_message
            (Scenario.sms (Scenario.healthy Scenario.mild_text)) Scenario.no_db
            "whatsapp:+15550100" "hi" "whatsapp")
     = "I hear you.".
Proof. repeat split; vm_compute; reflexivity. Qed.

(** ** [assess_crisis_risk] *)

(** The classifier answers with valid JSON whose crisis_risk is a word: the
    adapter hands it on as it is, which is not a CrisisAssessment of the data
    model. *)
Lemma assess_crisis_risk_unvalidated :
  Json.loads (Py.strip Scenario.vague_text) = Some (JObj [("crisis_risk", JStr "high")])
  /\ OpenAIService.assess_crisis_risk Json.loads (fun _ => Some Scenario.vague_text)
       "I feel low" = JObj [("crisis_risk", JStr "high")]
  /\ Spec.well_formed
       (OpenAIService.assess_crisis_risk Json.loads (fun _ => Some Scenario.vague_text)
          "I feel low") = false.
Proof. repeat split; vm_compute; reflexivity. Qed.

(** C3, as the code has it: the classifier is total (it returns a value on
    every outcome of the call); when the call raises it returns
    {5, other, crisis_line}; when the call answers with text that is not JSON
    it returns {0, none, monitor}; the two defaults are distinct well-formed
    assessments; and when the text is JSON the decoded value is returned as
    it is, without validation. *)
Theorem assess_crisis_risk_defaults (json_loads : string -> option json)
    (create : Api.endpoint) (message : string) :
  (create (OpenAIService.classifier_messages message) = None ->
   OpenAIService.assess_crisis_risk json_loads create message
     = JObj [("crisis_risk", JInt 5); ("crisis_type", JStr "other");
             ("recommended_action", JStr "crisis_line")])
  /\ (forall text,
        create (OpenAIService.classifier_messages message) = Some text ->
        json_loads (Py.strip text) = None ->
        OpenAIService.assess_crisis_risk json_loads create message
          = JObj [("crisis_risk", JInt 0); ("crisis_type", JStr "none");
                  ("recommended_action", JStr "monitor")])
  /\ (forall text result,
        create (OpenAIService.classifier_messages message) = Some text ->
        json_loads (Py.strip text) = Some result ->
        OpenAIService.assess_crisis_risk json_loads create message = result)
  /\ Spec.well_formed OpenAIService.call_default = true
  /\ Spec.well_formed OpenAIService.parse_default = true
  /\ OpenAIService.call_default <> OpenAIService.parse_default.
Proof.
  unfold OpenAIService.assess_crisis_risk.
  split; [|split; [|split; [|split; [|split]]]].
  - intros ->. reflexivity.
  - intros text -> ->. reflexivity.
  - intros text result -> ->. reflexivity.
  - reflexivity.
  - reflexivity.
  - discriminate.
Qed.

Lemma assess_crisis_risk_defaults_witness :
  OpenAIService.assess_crisis_risk Json.loads (fun _ => None) "I feel low"
    = JObj [("crisis_risk", JInt 5); ("crisis_type", JStr "other");
            ("recommended_action", JStr "crisis_line")]
  /\ OpenAIService.assess_crisis_risk Json.loads
       (fun _ => Some "I cannot assess this.") "I feel low"
     = JObj [("crisis_risk", JInt 0); ("crisis_type", JStr "none");
             ("recommended_action", JStr "monitor")]
  /\ OpenAIService.assess_crisis_risk Json.loads
       (fun _ => Some Scenario.mild_text) "I feel low"
     = JObj Scenario.mild_fields.
Proof.
  split; [|split].
  - destruct (assess_crisis_risk_defaults Json.loads (fun _ => None) "I feel low")
      as (Hcall & _).
    apply Hcall. reflexivity.
  - destruct (assess_crisis_risk_defaults Json.loads
                (fun _ => Some "I cannot assess this.") "I feel low")
      as (_ & Hparse & _).
    apply (Hparse "I cannot assess this."); reflexivity.
  - destruct (assess_crisis_risk_defaults Json.loads
                (fun _ => Some Scenario.mild_text) "I feel low")
      as (_ & _ & Hjson & _).
    apply (Hjson Scenario.mild_text); [reflexivity | vm_compute; reflexivity].
Defined.

(** What the web handler does with such an answer: the comparison with 7
    raises and nothing catches it. *)
Example send_message_unvalidated_assessment :
  fst (Chat.send_message (Scenario.healthy Scenario.vague_text) Scenario.no_db "u1" "hi")
    = Chat.Unhandled.
Proof. vm_compute. reflexivity. Qed.

(** ** The history given to the reply call *)

Lemma insert_by_perm {A} (key : A -> Z) (x : A) (l : list A) :
  Permutation (Store.insert_by key x l) (x :: l).
Proof.
  induction l as [|y l IH]; simpl; [reflexivity|].
  destruct (key x <=? key y); [reflexivity|].
  rewrite IH. apply perm_swap.
Qed.

Lemma order_by_perm {A} (key : A -> Z) (l : list A) :
  Permutation (Store.order_by key l) l.
Proof.
  induction l as [|x l IH]; simpl; [reflexivity|].
  change (foldr _ [] l) with (Store.order_by key l).
  rewrite insert_by_perm. apply perm_skip, IH.
Qed.

Lemma insert_by_sorted {A} (key : A -> Z) (x : A) (l : list A) :
  Sorted (fun a b => key a <= key b) l ->
  Sorted (fun a b => key a <= key b) (Store.insert_by key x l).
Proof.
  induction 1 as [|y l Hs IH Hhd]; simpl.
  - repeat constructor.
  - destruct (key x <=? key y) eqn:E.
    + apply Z.leb_le in E. repeat constructor; assumption.
    + apply Z.leb_gt in E. constructor; [exact IH|].
      destruct Hhd as [|z l Hyz]; simpl.
      * constructor. lia.
      * destruct (key x <=? key z); constructor; [lia | assumption].
Qed.

(** [order_by] lists the collection from the oldest document to the newest. *)
Lemma order_by_sorted {A} (key : A -> Z) (l : list A) :
  Sorted (fun a b => key a <= key b) (Store.order_by key l).
Proof.
  induction l as [|x l IH]; simpl; [constructor|].
  apply insert_by_sorted, IH.
Qed.

Lemma last_n_short {A} (n : nat) (l : list A) :
  (length l <= n)%nat -> Py.last_n n l = l.
Proof.
  intros H. unfold Py.last_n.
  replace (length l - n)%nat with 0%nat by lia. reflexivity.
Qed.

(** At most ten entries are read, whatever the store holds and wherever the
    stream breaks. *)
Lemma fetch_history_length (e : Chat.env) (d : Store.db) (user_id : string) :
  (length (Chat.fetch_history e d user_id) <= 10)%nat.
Proof.
  unfold Chat.fetch_history, Store.stream, Chat.history_query.
  destruct (Chat.read_fault e); rewrite length_fmap, ?length_take; lia.
Qed.

(** The reply call receives the system prompt, the entries read and the
    message: at most twelve messages. *)
Lemma request_messages_history (e : Chat.env) (d : Store.db) (user_id message : string) :
  OpenAIService.request_messages message (Some (Chat.fetch_history e d user_id))
    = {| Api.role := "system"; Api.content := OpenAIService.system_prompt |}
        :: (OpenAIService.to_api <$> Chat.fetch_history e d user_id)
        ++ [ {| Api.role := "user"; Api.content := message |} ].
Proof.
  unfold OpenAIService.request_messages. simpl.
  rewrite last_n_short by apply fetch_history_length. reflexivity.
Qed.

(** With a working store the entries read are the first ten of the
    conversation in ascending time order: its oldest ten. *)
Lemma fetch_history_oldest (e : Chat.env) (d : Store.db) (user_id : string) :
  Chat.read_fault e = None ->
  Chat.fetch_history e d user_id
    = Chat.to_entry <$> take 10 (Store.order_by Store.timestamp (Store.messages_of d user_id)).
Proof. intros H. unfold Chat.fetch_history. rewrite H. reflexivity. Qed.

(** C4 on a conversation of eleven messages m01 ... m11 written at times 1 to
    11: the reply call receives m01 ... m10 as context.  The most recent ten
    are m02 ... m11; the newest stored message m11 is left out and the oldest
    one is kept. *)
Theorem history_is_the_oldest_ten :
  Api.content <$>
    OpenAIService.request_messages "hi"
      (Some (Chat.fetch_history (Scenario.healthy Scenario.mild_text)
               (Scenario.chat_of Scenario.eleven) "u1"))
  = [OpenAIService.system_prompt; "m01"; "m02"; "m03"; "m04"; "m05"; "m06"; "m07";
     "m08"; "m09"; "m10"; "hi"]
  /\ Store.content <$> Py.last_n 10 Scenario.eleven
     = ["m02"; "m03"; "m04"; "m05"; "m06"; "m07"; "m08"; "m09"; "m10"; "m11"].
Proof. split; vm_compute; reflexivity. Qed.

(** ** Store failures during a turn *)

(** One SMS turn, run twice with the same services: once with a working
    store and once with the first write raising.  The text returned differs:
    on this channel a persistence failure replaces the reply. *)
Lemma sms_reply_depends_on_persistence :
  fst (Twilio.process_incoming_message
         (Scenario.sms (Scenario.healthy Scenario.mild_text)) Scenario.no_db
         "+15550100" "hi" "sms") = "I hear you."
  /\ fst (Twilio.process_incoming_message
            (Scenario.sms (Scenario.write_down Scenario.mild_text)) Scenario.no_db
            "+15550100" "hi" "sms") = Twilio.processing_fallback
  /\ Scenario.write_down Scenario.mild_text
     = Scenario.with_store (Scenario.healthy Scenario.mild_text) None None (Some 101)
  /\ fst (Twilio.process_incoming_message
            (Scenario.sms (Scenario.write_down Scenario.mild_text)) Scenario.no_db
            "+15550100" "hi" "sms")
     <> fst (Twilio.process_incoming_message
               (Scenario.sms (Scenario.healthy Scenario.mild_text)) Scenario.no_db
               "+15550100" "hi" "sms").
Proof.
  repeat split; try (vm_compute; reflexivity).
  vm_compute. discriminate.
Qed.

Lemma fetch_history_broken_at_once (e : Chat.env) (d : Store.db) (user_id : string) :
  Chat.read_fault e = Some 0%nat -> Chat.fetch_history e d user_id = [].
Proof. intros H. unfold Chat.fetch_history. rewrite H. reflexivity. Qed.

(** C5, as the code has it.  On the web channel no store failure prevents the
    turn from completing: the response is the same whatever the outcomes of
    the two writes, a history read that breaks before its first document
    leaves an empty history, and whenever the assessment can be compared with
    the threshold the caller receives a reply together with that assessment.
    On the SMS and WhatsApp channel a failure of any of the three store calls
    ends the turn with the fixed processing-failure sentence. *)
Theorem store_failures_during_turn (e : Chat.env) (d : Store.db)
    (user_id message : string) (rf : option nat) (uw bw : option Z) :
  user_id <> "" -> message <> "" ->
  fst (Chat.send_message (Scenario.with_store e (Chat.read_fault e) uw bw) d user_id message)
    = fst (Chat.send_message e d user_id message)
  /\ Chat.fetch_history (Scenario.with_store e (Some 0%nat) uw bw) d user_id = []
  /\ (forall high,
        Chat.high_risk
          (OpenAIService.assess_crisis_risk (Chat.json_loads e) (Chat.classifier_call e)
             message) = Some high ->
        exists reply,
          fst (Chat.send_message (Scenario.with_store e rf uw bw) d user_id message)
            = Chat.Reply reply
                (OpenAIService.assess_crisis_risk (Chat.json_loads e)
                   (Chat.classifier_call e) message))
  /\ (forall (found : option string) (created from_number message_type : string),
        rf <> None \/ uw = None \/ bw = None ->
        fst (Twilio.process_incoming_message
               {| Twilio.services := Scenario.with_store e rf uw bw;
                  Twilio.found_user := found; Twilio.new_user := created |}
               d from_number message message_type)
          = Twilio.processing_fallback).
Proof.
  intros Hu Hm. split; [|split; [|split]].
  - rewrite !(send_message_response _ _ _ _ Hu Hm). reflexivity.
  - apply fetch_history_broken_at_once. reflexivity.
  - intros high Hhigh.
    rewrite (send_message_response _ _ _ _ Hu Hm). cbv zeta. simpl.
    rewrite Hhigh. eexists. reflexivity.
  - intros found created from_number message_type H.
    apply process_incoming_message_store_failure. exact H.
Qed.

Lemma store_failures_during_turn_witness :
  fst (Chat.send_message
         (Scenario.with_store (Scenario.healthy Scenario.mild_text) None None None)
         (Scenario.chat_of Scenario.eleven) "u1" "hi")
    = fst (Chat.send_message (Scenario.healthy Scenario.mild_text)
             (Scenario.chat_of Scenario.eleven) "u1" "hi")
  /\ Chat.fetch_history
       (Scenario.with_store (Scenario.healthy Scenario.mild_text) (Some 0%nat) None None)
       (Scenario.chat_of Scenario.eleven) "u1" = []
  /\ (exists reply,
        fst (Chat.send_message
               (Scenario.with_store (Scenario.healthy Scenario.mild_text)
                  (Some 3%nat) None None)
               (Scenario.chat_of Scenario.eleven) "u1" "hi")
          = Chat.Reply reply (JObj Scenario.mild_fields))
  /\ fst (Twilio.process_incoming_message
            {| Twilio.services :=
                 Scenario.with_store (Scenario.healthy Scenario.mild_text)
                   (Some 3%nat) None None;
               Twilio.found_user := Some "u1"; Twilio.new_user := "temp-0" |}
            (Scenario.chat_of Scenario.eleven) "+15550100" "hi" "sms")
     = Twilio.processing_fallback.
Proof.
  destruct (store_failures_during_turn (Scenario.healthy Scenario.mild_text)
              (Scenario.chat_of Scenario.eleven) "u1" "hi" (Some 3%nat) None None)
    as (Hwrites & Hread & Hreply & Hsms).
  - discriminate.
  - discriminate.
  - split; [exact Hwrites|]. split; [exact Hread|]. split.
    + apply (Hreply false). vm_compute. reflexivity.
    + apply Hsms. left. discriminate.
Defined.

(** ** [log_mood] *)

(** X16: An integer score between 1 and 10 is stored once, as it is. *)
Lemma log_mood_valid (e : Mood.env) (d : Store.db) (r : Mood.request) (s t : Z) :
  Mood.userId r <> "" -> Mood.score r = JInt s -> 1 <= s <= 10 -> Mood.add e = Some t ->
  exists ins,
    fst (Mood.log_mood e d r) = Mood.Logged "Mood logged successfully" ins
    /\ Store.moods_of (snd (Mood.log_mood e d r)) (Mood.userId r)
       = Store.moods_of d (Mood.userId r)
           ++ [ {| Store.score := Some s; Store.label := Mood.label r;
                   Store.notes := Mood.notes r; Store.logged := t |} ].
Proof.
  intros Hu Hs Hrange Hadd. unfold Mood.log_mood.
  rewrite (falsy_nonempty _ Hu), Hs. simpl.
  replace (s <? 1) with false by (symmetry; apply Z.ltb_ge; lia).
  replace (s >? 10) with false by (symmetry; rewrite Z.gtb_ltb; apply Z.ltb_ge; lia).
  simpl. rewrite Hadd. eexists. split; [reflexivity|].
  simpl. unfold Store.moods_of at 1. simpl. rewrite lookup_insert_eq. reflexivity.
Qed.

(** An integer score outside 1..10 is refused and nothing is stored. *)
Lemma log_mood_out_of_range (e : Mood.env) (d : Store.db) (r : Mood.request) (s : Z) :
  Mood.userId r <> "" -> Mood.score r = JInt s -> s < 1 \/ 10 < s ->
  Mood.log_mood e d r = (Mood.Error 400 "Mood score must be between 1 and 10", d).
Proof.
  intros Hu Hs Hrange. unfold Mood.log_mood.
  rewrite (falsy_nonempty _ Hu), Hs. simpl.
  destruct Hrange as [H | H].
  - replace (s <? 1) with true by (symmetry; apply Z.ltb_lt; lia). reflexivity.
  - replace (s >? 10) with true by (symmetry; rewrite Z.gtb_ltb; apply Z.ltb_lt; lia).
    rewrite orb_true_r. reflexivity.
Qed.

(** A text that [int] does not read is refused and nothing is stored. *)
Lemma log_mood_not_a_number (e : Mood.env) (d : Store.db) (r : Mood.request) (s : string) :
  Mood.userId r <> "" -> Mood.score r = JStr s -> Py.int_of_str s = None ->
  Mood.log_mood e d r = (Mood.Error 400 "Invalid mood score format", d).
Proof.
  intros Hu Hs Hint. unfold Mood.log_mood.
  rewrite (falsy_nonempty _ Hu), Hs. simpl. rewrite Hint. reflexivity.
Qed.

(** Whatever the request, the store is left as it was or gains one entry
    whose score lies between 1 and 10. *)
Lemma log_mood_persists_in_range (e : Mood.env) (d : Store.db) (r : Mood.request) :
  snd (Mood.log_mood e d r) = d
  \/ exists s t, 1 <= s <= 10
       /\ snd (Mood.log_mood e d r)
          = Store.add_mood d (Mood.userId r)
              {| Store.score := Some s; Store.label := Mood.label r;
                 Store.notes := Mood.notes r; Store.logged := t |}.
Proof.
  unfold Mood.log_mood.
  destruct (Py.falsy (Mood.userId r) || Mood.is_none (Mood.score r)); [left; reflexivity|].
  destruct (Mood.int (Mood.score r)) as [n| |]; try (left; reflexivity).
  destruct ((n <? 1) || (n >? 10)) eqn:E; [left; reflexivity|].
  destruct (Mood.add e) as [t|]; [|left; reflexivity].
  right. exists n, t. split; [|reflexivity].
  apply orb_false_iff in E. destruct E as [E1 E2].
  apply Z.ltb_ge in E1. rewrite Z.gtb_ltb in E2. apply Z.ltb_ge in E2. lia.
Qed.

(** C6 on the request {userId: u1, score: 10.9}: the score is a JSON number
    above 10 and not an integer, yet the handler answers with success and
    stores one entry whose score is 10. *)
Theorem log_mood_truncates_fraction :
  fst (Mood.log_mood Scenario.mood_env Scenario.no_db Scenario.fractional)
    = Mood.Logged "Mood logged successfully" Mood.not_enough
  /\ Store.moods_of (snd (Mood.log_mood Scenario.mood_env Scenario.no_db Scenario.fractional))
       "u1"
     = [ {| Store.score := Some 10; Store.label := Some "calm"; Store.notes := "";
            Store.logged := 1000000 |} ].
Proof. split; vm_compute; reflexivity. Qed.

Example log_mood_examples :
  Store.score <$>
    Store.moods_of (snd (Mood.log_mood Scenario.mood_env Scenario.no_db (Scenario.scored 7))) "u1"
    = [Some 7]
  /\ Mood.log_mood Scenario.mood_env Scenario.no_db (Scenario.scored 0)
     = (Mood.Error 400 "Mood score must be between 1 and 10", Scenario.no_db)
  /\ Mood.log_mood Scenario.mood_env Scenario.no_db (Scenario.scored 11)
     = (Mood.Error 400 "Mood score must be between 1 and 10", Scenario.no_db)
  /\ Mood.log_mood Scenario.mood_env Scenario.no_db
       {| Mood.userId := "u1"; Mood.score := JStr "7.5"; Mood.label := None; Mood.notes := "" |}
     = (Mood.Error 400 "Invalid mood score format", Scenario.no_db)
  /\ Store.score <$>
       Store.moods_of
         (snd (Mood.log_mood Scenario.mood_env Scenario.no_db
                 {| Mood.userId := "u1"; Mood.score := JFloat (Q2Qc (37 # 10));
                    Mood.label := None; Mood.notes := "" |})) "u1"
     = [Some 3].
Proof. repeat split; vm_compute; reflexivity. Qed.

(** ** The mood trend *)

(** A list of three or more elements is a first element, a middle part, and
    the last two elements. *)
Lemma three_or_more {A} (l : list A) :
  (3 <= length l)%nat ->
  exists first mid before_last last, l = first :: mid ++ [before_last; last].
Proof.
  intros H. destruct l as [|first l]; [simpl in H; lia|].
  exists first. simpl in H.
  assert (Hl : (2 <= length l)%nat) by lia. clear H.
  induction l as [|x l IH] using rev_ind; [simpl in Hl; lia|].
  rewrite length_app in Hl. simpl in Hl.
  destruct l as [|y l _] using rev_ind; [simpl in Hl; lia|].
  exists l, y, x. rewrite <- app_assoc. reflexivity.
Qed.

Section Ends.
Context {A : Type} (first before_last last : A) (mid : list A).

Lemma ends_length :
  length (first :: mid ++ [before_last; last]) = (3 + length mid)%nat.
Proof. simpl. rewrite length_app. simpl. lia. Qed.

Lemma index_first : Py.index (first :: mid ++ [before_last; last]) 0 = Some first.
Proof. reflexivity. Qed.

Lemma index_last : Py.index (first :: mid ++ [before_last; last]) (-1) = Some last.
Proof.
  unfold Py.index. rewrite ends_length.
  replace (-1 <? 0) with true by reflexivity.
  replace (Z.of_nat (3 + length mid) + -1 <? 0) with false
    by (symmetry; apply Z.ltb_ge; lia).
  replace (Z.to_nat (Z.of_nat (3 + length mid) + -1)) with (S (length mid + 1)) by lia.
  simpl. rewrite lookup_app_r by lia.
  replace (length mid + 1 - length mid)%nat with 1%nat by lia. reflexivity.
Qed.

Lemma index_before_last :
  Py.index (first :: mid ++ [before_last; last]) (-2) = Some before_last.
Proof.
  unfold Py.index. rewrite ends_length.
  replace (-2 <? 0) with true by reflexivity.
  replace (Z.of_nat (3 + length mid) + -2 <? 0) with false
    by (symmetry; apply Z.ltb_ge; lia).
  replace (Z.to_nat (Z.of_nat (3 + length mid) + -2)) with (S (length mid + 0)) by lia.
  simpl. rewrite lookup_app_r by lia.
  replace (length mid + 0 - length mid)%nat with 0%nat by lia. reflexivity.
Qed.
End Ends.

(** [classify] looks at the two ends of the list only. *)
Lemma classify_ends (first before_last last : Z) (mid : list Z) :
  Mood.classify (first :: mid ++ [before_last; last])
    = Some (if (last >? first) && (before_last >? first) then Mood.improving
            else if (last <? first) && (before_last <? first) then Mood.declining
            else Mood.stable).
Proof.
  unfold Mood.classify.
  rewrite index_first, index_last, index_before_last, ends_length.
  replace (3 <=? 3 + length mid)%nat with true by (symmetry; apply Nat.leb_le; lia).
  destruct ((last >? first) && (before_last >? first)); [reflexivity|].
  destruct ((last <? first) && (before_last <? first)); reflexivity.
Qed.

Lemma compute_insight_enough (entries : list Store.mood) :
  (3 <= length entries)%nat ->
  exists t,
    Mood.classify ((fun e => default 5 (Store.score e)) <$> entries) = Some t
    /\ Mood.compute_insight entries
       = {| Mood.message :=
              Mood.describe t (Mood.mean ((fun e => default 5 (Store.score e)) <$> entries));
            Mood.trends :=
              Some {| Mood.trend_direction := t;
                      Mood.trend_average :=
                        Mood.mean ((fun e => default 5 (Store.score e)) <$> entries) |} |}.
Proof.
  intros H. unfold Mood.compute_insight.
  replace (length entries <? 3)%nat with false by (symmetry; apply Nat.ltb_ge; lia).
  destruct (three_or_more ((fun e => default 5 (Store.score e)) <$> entries))
    as (f & mid & p & l & Hshape); [rewrite length_fmap; exact H|].
  rewrite Hshape, classify_ends. eexists. split; reflexivity.
Qed.

(** C7: for every sequence of three or more entries, with [first] the first
    score and [before_last], [last] the last two, the trend is improving
    exactly when both [last] and [before_last] exceed [first], declining
    exactly when both are below [first], and stable otherwise; the scores in
    between ([mid]) play no part. *)
Theorem trend_classification (entries : list Store.mood) :
  (3 <= length entries)%nat ->
  exists first mid before_last last t,
    (fun e => default 5 (Store.score e)) <$> entries = first :: mid ++ [before_last; last]
    /\ Mood.trends (Mood.compute_insight entries) = Some t
    /\ (Mood.trend_direction t = Mood.improving <-> last > first /\ before_last > first)
    /\ (Mood.trend_direction t = Mood.declining <-> last < first /\ before_last < first)
    /\ (Mood.trend_direction t = Mood.stable
        <-> ~ (last > first /\ before_last > first)
            /\ ~ (last < first /\ before_last < first)).
Proof.
  intros H.
  destruct (three_or_more ((fun e => default 5 (Store.score e)) <$> entries))
    as (f & mid & p & l & Hshape); [rewrite length_fmap; exact H|].
  destruct (compute_insight_enough entries H) as (t & Ht & Hins).
  rewrite Hshape, classify_ends in Ht. injection Ht as Ht.
  exists f, mid, p, l. eexists. split; [exact Hshape|].
  rewrite Hins. simpl. split; [reflexivity|]. simpl. rewrite <- Ht.
  destruct (l >? f) eqn:E1; destruct (p >? f) eqn:E2;
    destruct (l <? f) eqn:E3; destruct (p <? f) eqn:E4; simpl;
    rewrite ?Z.gtb_ltb in *;
    rewrite ?Z.ltb_lt, ?Z.ltb_ge in *;
    repeat split; intros; try discriminate; try lia.
Qed.

Lemma trend_classification_witness :
  exists first mid before_last last t,
    (fun e => default 5 (Store.score e)) <$> Scenario.entries [3; 3; 3; 3; 8; 9; 9]
      = first :: mid ++ [before_last; last]
    /\ Mood.trends (Mood.compute_insight (Scenario.entries [3; 3; 3; 3; 8; 9; 9])) = Some t
    /\ (Mood.trend_direction t = Mood.improving <-> last > first /\ before_last > first)
    /\ (Mood.trend_direction t = Mood.declining <-> last < first /\ before_last < first)
    /\ (Mood.trend_direction t = Mood.stable
        <-> ~ (last > first /\ before_last > first)
            /\ ~ (last < first /\ before_last < first)).
Proof.
  apply (trend_classification (Scenario.entries [3; 3; 3; 3; 8; 9; 9])).
  simpl. lia.
Defined.

(** The sequences the specification lists. *)
Example trend_examples :
  Mood.trend_direction <$> Mood.trends (Mood.compute_insight (Scenario.entries [3; 3; 3; 3; 8; 9; 9]))
    = Some Mood.improving
  /\ Mood.trend_direction <$> Mood.trends (Mood.compute_insight (Scenario.entries [8; 8; 8; 8; 3; 2; 2]))
     = Some Mood.declining
  /\ Mood.trend_direction <$> Mood.trends (Mood.compute_insight (Scenario.entries [5; 6; 5; 6; 5]))
     = Some Mood.stable
  /\ Mood.trend_direction <$> Mood.trends (Mood.compute_insight (Scenario.entries [3; 9; 9]))
     = Some Mood.improving
  /\ Mood.trend_direction <$> Mood.trends (Mood.compute_insight (Scenario.entries [3; 1; 0; 0; 9; 9]))
     = Some Mood.improving.
Proof. repeat split; vm_compute; reflexivity. Qed.

(** ** Averages and extremes *)

Lemma mean_is_mean (scores : list Z) :
  scores <> [] -> Spec.is_mean (Mood.mean scores) scores.
Proof.
  intros Hne. unfold Spec.is_mean, Mood.mean.
  apply Qc_is_canon. simpl. rewrite !Qred_correct.
  unfold Qeq. simpl.
  assert (Hlen : Z.pos (Pos.of_nat (length scores)) = Z.of_nat (length scores)).
  { destruct scores as [|x l]; [congruence|].
    rewrite <- (positive_nat_Z (Pos.of_nat (length (x :: l)))).
    rewrite Nat2Pos.id by (simpl; lia). reflexivity. }
  rewrite Pos2Z.inj_mul, Hlen. ring.
Qed.

Lemma foldl_max_spec (l : list Z) (x : Z) :
  foldl Z.max x l ∈ x :: l /\ forall y, y ∈ x :: l -> y <= foldl Z.max x l.
Proof.
  revert x. induction l as [|z l IH]; intros x; simpl.
  - split; [left|]. intros y Hy. apply list_elem_of_singleton in Hy. lia.
  - destruct (IH (Z.max x z)) as [Hin Hub]. split.
    + apply elem_of_cons in Hin. destruct Hin as [Hin | Hin].
      * rewrite Hin. destruct (Z.max_spec x z) as [[_ ->] | [_ ->]];
          [right; left | left].
      * right; right; exact Hin.
    + intros y Hy. apply elem_of_cons in Hy.
      destruct Hy as [-> | Hy].
      * specialize (Hub (Z.max x z) ltac:(left)). lia.
      * apply elem_of_cons in Hy. destruct Hy as [-> | Hy].
        -- specialize (Hub (Z.max x z) ltac:(left)). lia.
        -- apply Hub. right. exact Hy.
Qed.

Lemma foldl_min_spec (l : list Z) (x : Z) :
  foldl Z.min x l ∈ x :: l /\ forall y, y ∈ x :: l -> foldl Z.min x l <= y.
Proof.
  revert x. induction l as [|z l IH]; intros x; simpl.
  - split; [left|]. intros y Hy. apply list_elem_of_singleton in Hy. lia.
  - destruct (IH (Z.min x z)) as [Hin Hlb]. split.
    + apply elem_of_cons in Hin. destruct Hin as [Hin | Hin].
      * rewrite Hin. destruct (Z.min_spec x z) as [[_ ->] | [_ ->]];
          [left | right; left].
      * right; right; exact Hin.
    + intros y Hy. apply elem_of_cons in Hy.
      destruct Hy as [-> | Hy].
      * specialize (Hlb (Z.min x z) ltac:(left)). lia.
      * apply elem_of_cons in Hy. destruct Hy as [-> | Hy].
        -- specialize (Hlb (Z.min x z) ltac:(left)). lia.
        -- apply Hlb. right. exact Hy.
Qed.

(** C8: on fewer than three entries, whatever their scores, the insight is
    the fixed message with no trend; on three or more entries it carries a
    trend whose average is the arithmetic mean of all the scores. *)
Theorem compute_insight_threshold (entries : list Store.mood) :
  ((length entries < 3)%nat ->
   Mood.compute_insight entries
     = {| Mood.message := "Log more moods to receive personalized insights";
          Mood.trends := None |})
  /\ ((3 <= length entries)%nat ->
      exists t,
        Mood.trends (Mood.compute_insight entries) = Some t
        /\ Spec.is_mean (Mood.trend_average t)
             ((fun e => default 5 (Store.score e)) <$> entries)).
Proof.
  split.
  - intros H. unfold Mood.compute_insight.
    replace (length entries <? 3)%nat with true by (symmetry; apply Nat.ltb_lt; lia).
    reflexivity.
  - intros H. destruct (compute_insight_enough entries H) as (t & _ & Hins).
    rewrite Hins. simpl. eexists. split; [reflexivity|]. simpl.
    apply mean_is_mean. destruct entries; [simpl in H; lia | discriminate].
Qed.

Lemma compute_insight_threshold_witness :
  Mood.compute_insight (Scenario.entries [1; 10])
    = {| Mood.message := "Log more moods to receive personalized insights";
         Mood.trends := None |}
  /\ exists t,
       Mood.trends (Mood.compute_insight (Scenario.entries [5; 6; 5; 6; 5])) = Some t
       /\ Spec.is_mean (Mood.trend_average t)
            ((fun e => default 5 (Store.score e)) <$> Scenario.entries [5; 6; 5; 6; 5]).
Proof.
  split.
  - apply (compute_insight_threshold (Scenario.entries [1; 10])). simpl. lia.
  - apply (compute_insight_threshold (Scenario.entries [5; 6; 5; 6; 5])). simpl. lia.
Defined.

Example compute_insight_examples :
  Mood.compute_insight [] = Mood.not_enough
  /\ Mood.compute_insight (Scenario.entries [10; 10]) = Mood.not_enough
  /\ Mood.trend_average <$> Mood.trends (Mood.compute_insight (Scenario.entries [5; 6; 5; 6; 5]))
     = Some (Q2Qc (27 # 5))
  /\ Mood.message (Mood.compute_insight (Scenario.entries [5; 6; 5; 6; 5]))
     = "Your mood has been relatively stable."
  /\ Mood.message (Mood.compute_insight (Scenario.entries [8; 7; 8]))
     = "Your mood has been consistently positive recently.".
Proof. repeat split; vm_compute; reflexivity. Qed.

(** C9: on the empty list the statistics are count 0 with no average,
    highest or lowest; on a non-empty list of entries that all carry a score
    the average is the arithmetic mean of the scores, highest their maximum,
    lowest their minimum and count their number; and the scores 2 and 8 give
    average 5, highest 8, lowest 2, count 2. *)
Theorem calculate_mood_statistics_spec :
  Mood.calculate_mood_statistics []
    = {| Mood.average := None; Mood.highest := None; Mood.lowest := None; Mood.count := 0 |}
  /\ (forall (mood_entries : list Mood.row) (scores : list Z),
        mood_entries <> [] ->
        Mood.row_score <$> mood_entries = Some <$> scores ->
        exists a h l,
          Mood.calculate_mood_statistics mood_entries
            = {| Mood.average := Some a; Mood.highest := Some h; Mood.lowest := Some l;
                 Mood.count := length mood_entries |}
          /\ Spec.is_mean a scores /\ Spec.is_max h scores /\ Spec.is_min l scores)
  /\ Mood.calculate_mood_statistics (Scenario.rows [2; 8])
     = {| Mood.average := Some (Q2Qc (inject_Z 5)); Mood.highest := Some 8;
          Mood.lowest := Some 2; Mood.count := 2 |}.
Proof.
  split; [reflexivity|]. split.
  2:{ unfold Mood.calculate_mood_statistics, Mood.mean. simpl.
      do 2 f_equal. apply Qc_is_canon. reflexivity. }
  intros mood_entries scores Hne Hscores.
  assert (Heq : (fun entry => default 0 (Mood.row_score entry)) <$> mood_entries = scores).
  { clear Hne. revert scores Hscores.
    induction mood_entries as [|r rows IH]; intros [|s scores] H; simpl in *;
      try discriminate; [reflexivity|].
    injection H as Hr Hrest. rewrite Hr. simpl. f_equal. apply IH, Hrest. }
  unfold Mood.calculate_mood_statistics.
  destruct mood_entries as [|r rows]; [congruence|].
  rewrite Heq, <- (length_fmap (fun entry => default 0 (Mood.row_score entry))), Heq.
  destruct scores as [|s scores]; [discriminate|].
  exists (Mood.mean (s :: scores)), (foldl Z.max s scores), (foldl Z.min s scores).
  split; [reflexivity|].
  split; [apply mean_is_mean; discriminate|].
  split; [apply foldl_max_spec | apply foldl_min_spec].
Qed.

Lemma calculate_mood_statistics_spec_witness :
  exists a h l,
    Mood.calculate_mood_statistics (Scenario.rows [4; 9; 1])
      = {| Mood.average := Some a; Mood.highest := Some h; Mood.lowest := Some l;
           Mood.count := length (Scenario.rows [4; 9; 1]) |}
    /\ Spec.is_mean a [4; 9; 1] /\ Spec.is_max h [4; 9; 1] /\ Spec.is_min l [4; 9; 1].
Proof.
  destruct calculate_mood_statistics_spec as (_ & Hstats & _).
  apply (Hstats (Scenario.rows [4; 9; 1]) [4; 9; 1]); [discriminate | reflexivity].
Defined.

(** ** [clear_chat_history] *)

(** With a working store one call deletes the first hundred messages of the
    user, reports how many that was, and leaves the rest. *)
Lemma clear_chat_history_batch (d : Store.db) (user_id : string) :
  user_id <> "" ->
  fst (Chat.clear_chat_history None d user_id)
    = Chat.Cleared (length (Store.messages_of d user_id) `min` 100)
  /\ Store.messages_of (snd (Chat.clear_chat_history None d user_id)) user_id
     = drop 100 (Store.messages_of d user_id).
Proof.
  intros Hu. unfold Chat.clear_chat_history, Chat.batch_size.
  rewrite (falsy_nonempty _ Hu). simpl. rewrite length_take, Nat.min_comm.
  split; [reflexivity|].
  unfold Store.messages_of at 1. simpl. rewrite lookup_insert_eq. simpl.
  destruct (Nat.min_spec (length (Store.messages_of d user_id)) 100) as [[H ->] | [H ->]];
    [|reflexivity].
  rewrite !drop_ge by lia. reflexivity.
Qed.

(** Up to a hundred messages, one call removes them all and returns their
    number. *)
Lemma clear_chat_history_small (d : Store.db) (user_id : string) :
  user_id <> "" -> (length (Store.messages_of d user_id) <= 100)%nat ->
  fst (Chat.clear_chat_history None d user_id)
    = Chat.Cleared (length (Store.messages_of d user_id))
  /\ Store.messages_of (snd (Chat.clear_chat_history None d user_id)) user_id = [].
Proof.
  intros Hu Hlen. destruct (clear_chat_history_batch d user_id Hu) as [-> ->].
  rewrite Nat.min_l by lia. rewrite drop_ge by lia. split; reflexivity.
Qed.

(** On an empty conversation the call returns 0 and the conversation stays
    empty, so that a second call does the same. *)
Lemma clear_chat_history_empty (d : Store.db) (user_id : string) :
  user_id <> "" -> Store.messages_of d user_id = [] ->
  fst (Chat.clear_chat_history None d user_id) = Chat.Cleared 0
  /\ Store.messages_of (snd (Chat.clear_chat_history None d user_id)) user_id = [].
Proof.
  intros Hu Hempty.
  destruct (clear_chat_history_small d user_id Hu) as [H1 H2]; [rewrite Hempty; simpl; lia|].
  rewrite H1, H2, Hempty. split; reflexivity.
Qed.

(** X10: The conversations of the other users are not touched. *)
Lemma clear_chat_history_others (fault : option nat) (d : Store.db) (user_id other : string) :
  other <> user_id ->
  Store.messages_of (snd (Chat.clear_chat_history fault d user_id)) other
    = Store.messages_of d other.
Proof.
  intros Hne. unfold Chat.clear_chat_history.
  destruct (Py.falsy user_id); [reflexivity|].
  destruct fault; simpl; unfold Store.messages_of; simpl;
    rewrite lookup_insert_ne by congruence; reflexivity.
Qed.

(** C10 on a conversation of 101 messages: one call with a working store
    answers deleted = 100 and the message written last is still stored. *)
Theorem clear_chat_history_stops_at_batch :
  length (Store.messages_of (Scenario.chat_of (Scenario.many 101)) "u1") = 101%nat
  /\ fst (Chat.clear_chat_history None (Scenario.chat_of (Scenario.many 101)) "u1")
     = Chat.Cleared 100
  /\ Store.messages_of
       (snd (Chat.clear_chat_history None (Scenario.chat_of (Scenario.many 101)) "u1")) "u1"
     = [Scenario.said 101 "user" "hello"].
Proof. repeat split; vm_compute; reflexivity. Qed.

Example clear_chat_history_examples :
  fst (Chat.clear_chat_history None (Scenario.chat_of Scenario.eleven) "u1") = Chat.Cleared 11
  /\ Store.messages_of
       (snd (Chat.clear_chat_history None (Scenario.chat_of Scenario.eleven) "u1")) "u1" = []
  /\ fst (Chat.clear_chat_history None Scenario.no_db "u1") = Chat.Cleared 0
  /\ fst (Chat.clear_chat_history None
            (snd (Chat.clear_chat_history None (Scenario.chat_of Scenario.eleven) "u1")) "u1")
     = Chat.Cleared 0
  /\ fst (Chat.clear_chat_history (Some 4%nat) (Scenario.chat_of Scenario.eleven) "u1")
     = Chat.Error 500 "Failed to clear chat history"
  /\ length (Store.messages_of
               (snd (Chat.clear_chat_history (Some 4%nat) (Scenario.chat_of Scenario.eleven) "u1"))
               "u1") = 7%nat.
Proof. repeat split; vm_compute; reflexivity. Qed.

(** * Further properties of the handlers *)

(** ** What a web turn writes *)

(** X1: A turn that returns a reply leaves the conversation of the user as it
    was, followed by the message when the first write went through and by the
    reply, exactly as returned, when the second one did. *)
Theorem send_message_store_effect (e : Chat.env) (d : Store.db)
    (user_id message reply : string) (a : json) :
  fst (Chat.send_message e d user_id message) = Chat.Reply reply a ->
  Store.messages_of (snd (Chat.send_message e d user_id message)) user_id
    = Store.messages_of d user_id
        ++ match Chat.user_write e with
           | Some t => [ {| Store.sender := "user"; Store.content := message;
                            Store.timestamp := t; Store.channel := None |} ]
           | None => []
           end
        ++ match Chat.bot_write e with
           | Some t => [ {| Store.sender := "bot"; Store.content := reply;
                            Store.timestamp := t; Store.channel := None |} ]
           | None => []
           end.
Proof.
  unfold Chat.send_message.
  destruct (Py.falsy user_id || Py.falsy message); [discriminate|].
  destruct (Chat.high_risk _) as [high|]; [|discriminate].
  simpl. intros [= <- _]. unfold Chat.store.
  destruct (Chat.user_write e) as [t1|], (Chat.bot_write e) as [t2|]; simpl;
    unfold Store.messages_of at 1; simpl;
    rewrite ?lookup_insert_eq; simpl;
    try (unfold Store.messages_of at 1; simpl; rewrite lookup_insert_eq; simpl);
    rewrite <- ?app_assoc, ?app_nil_r; reflexivity.
Qed.

Lemma send_message_store_effect_witness :
  Store.messages_of
    (snd (Chat.send_message (Scenario.healthy Scenario.panic_text)
            (Scenario.chat_of Scenario.eleven) "u1" "I cannot breathe")) "u1"
  = Scenario.eleven
      ++ [ {| Store.sender := "user"; Store.content := "I cannot breathe";
              Store.timestamp := 100; Store.channel := None |} ]
      ++ [ {| Store.sender := "bot";
              Store.content := "I hear you." +:+ Chat.generic_resources;
              Store.timestamp := 101; Store.channel := None |} ].
Proof.
  apply (send_message_store_effect (Scenario.healthy Scenario.panic_text)
           (Scenario.chat_of Scenario.eleven) "u1" "I cannot breathe"
           ("I hear you." +:+ Chat.generic_resources) (JObj Scenario.panic_fields)).
  vm_compute. reflexivity.
Defined.

(** X2: A turn changes neither the conversation of another user nor any mood
    entry. *)
Theorem send_message_isolated (e : Chat.env) (d : Store.db)
    (user_id message other : string) :
  other <> user_id ->
  Store.messages_of (snd (Chat.send_message e d user_id message)) other
    = Store.messages_of d other
  /\ Store.moods (snd (Chat.send_message e d user_id message)) = Store.moods d.
Proof.
  intros Hne. unfold Chat.send_message.
  destruct (Py.falsy user_id || Py.falsy message); [split; reflexivity|].
  destruct (Chat.high_risk _) as [high|]; simpl; unfold Chat.store;
    destruct (Chat.user_write e) as [t1|]; try destruct (Chat.bot_write e) as [t2|];
    simpl; unfold Store.messages_of; simpl;
    rewrite ?lookup_insert_ne by congruence; split; reflexivity.
Qed.

Lemma send_message_isolated_witness :
  Store.messages_of
    (snd (Chat.send_message (Scenario.healthy Scenario.mild_text)
            (Scenario.chat_of Scenario.eleven) "u2" "hi")) "u1"
    = Store.messages_of (Scenario.chat_of Scenario.eleven) "u1"
  /\ Store.moods (snd (Chat.send_message (Scenario.healthy Scenario.mild_text)
                         (Scenario.chat_of Scenario.eleven) "u2" "hi"))
     = Store.moods (Scenario.chat_of Scenario.eleven).
Proof.
  apply (send_message_isolated (Scenario.healthy Scenario.mild_text)
           (Scenario.chat_of Scenario.eleven) "u2" "hi" "u1").
  discriminate.
Defined.

(** X3: When the assessment is not an object, or its crisis_risk is not a number,
    the comparison with 7 raises outside every [try]: the request fails, the
    message is already stored when its write went through, and no reply is
    stored. *)
Theorem send_message_assessment_not_comparable (e : Chat.env) (d : Store.db)
    (user_id message : string) :
  user_id <> "" -> message <> "" ->
  Chat.high_risk
    (OpenAIService.assess_crisis_risk (Chat.json_loads e) (Chat.classifier_call e) message)
    = None ->
  fst (Chat.send_message e d user_id message) = Chat.Unhandled
  /\ Store.messages_of (snd (Chat.send_message e d user_id message)) user_id
     = Store.messages_of d user_id
         ++ match Chat.user_write e with
            | Some t => [ {| Store.sender := "user"; Store.content := message;
                             Store.timestamp := t; Store.channel := None |} ]
            | None => []
            end.
Proof.
  intros Hu Hm Hrisk. unfold Chat.send_message.
  rewrite (falsy_nonempty _ Hu), (falsy_nonempty _ Hm). simpl. rewrite Hrisk.
  split; [reflexivity|]. simpl. unfold Chat.store.
  destruct (Chat.user_write e) as [t1|]; simpl.
  - unfold Store.messages_of at 1. simpl. rewrite lookup_insert_eq. reflexivity.
  - rewrite app_nil_r. reflexivity.
Qed.

Lemma send_message_assessment_not_comparable_witness :
  fst (Chat.send_message (Scenario.healthy Scenario.vague_text) Scenario.no_db "u1" "hi")
    = Chat.Unhandled
  /\ Store.messages_of
       (snd (Chat.send_message (Scenario.healthy Scenario.vague_text) Scenario.no_db "u1" "hi"))
       "u1"
     = Store.messages_of Scenario.no_db "u1"
         ++ [ {| Store.sender := "user"; Store.content := "hi";
                 Store.timestamp := 100; Store.channel := None |} ].
Proof.
  apply (send_message_assessment_not_comparable (Scenario.healthy Scenario.vague_text)
           Scenario.no_db "u1" "hi").
  - discriminate.
  - discriminate.
  - vm_compute. reflexivity.
Defined.

(** ** The request of the reply call *)

(** X4: Whatever the length of [chat_history], the reply call receives the system
    prompt, then at most ten entries, which are the end of the history in its
    order and carry the role user or assistant, then the message itself. *)
Theorem reply_context_bounded (message : string) (chat_history : list OpenAIService.entry) :
  exists context,
    OpenAIService.request_messages message (Some chat_history)
      = {| Api.role := "system"; Api.content := OpenAIService.system_prompt |}
          :: context ++ [ {| Api.role := "user"; Api.content := message |} ]
    /\ (length context <= 10)%nat
    /\ context `suffix_of` (OpenAIService.to_api <$> chat_history)
    /\ Forall (fun m => Api.role m = "user" \/ Api.role m = "assistant") context.
Proof.
  exists (OpenAIService.to_api <$> Py.last_n 10 chat_history).
  split; [reflexivity|]. unfold Py.last_n. split; [|split].
  - rewrite length_fmap, length_drop. lia.
  - rewrite fmap_drop. apply suffix_drop.
  - apply Forall_fmap, Forall_forall. intros m _. simpl.
    unfold OpenAIService.to_api. simpl.
    destruct (OpenAIService.sender m =? "user")%string; [left | right]; reflexivity.
Qed.

Lemma sorted_take {A} (R : A -> A -> Prop) (n : nat) (l : list A) :
  Sorted R l -> Sorted R (take n l).
Proof.
  intros Hs. revert n. induction Hs as [|x l Hs IH Hhd]; intros [|n]; simpl;
    try constructor.
  - apply IH.
  - destruct Hhd as [|y l Hxy]; destruct n; simpl; constructor. exact Hxy.
Qed.

(** X5: The entries read for a turn are in ascending time order, there are at
    most ten of them, each is a stored message of that user, and a
    conversation of ten messages or fewer is read whole. *)
Theorem history_query_sorted (d : Store.db) (user_id : string) :
  Sorted (fun a b => Store.timestamp a <= Store.timestamp b) (Chat.history_query d user_id)
  /\ (length (Chat.history_query d user_id) <= 10)%nat
  /\ (forall m, m ∈ Chat.history_query d user_id -> m ∈ Store.messages_of d user_id)
  /\ ((length (Store.messages_of d user_id) <= 10)%nat ->
      Chat.history_query d user_id ≡ₚ Store.messages_of d user_id).
Proof.
  unfold Chat.history_query. split; [|split; [|split]].
  - apply sorted_take, order_by_sorted.
  - rewrite length_take. lia.
  - intros m Hm. apply subseteq_take in Hm.
    rewrite (order_by_perm Store.timestamp (Store.messages_of d user_id)) in Hm. exact Hm.
  - intros Hlen. rewrite take_ge.
    + apply order_by_perm.
    + rewrite (Permutation_length (order_by_perm _ _)). exact Hlen.
Qed.

Lemma history_query_sorted_witness :
  Chat.history_query (Scenario.chat_of (rev (take 4 Scenario.eleven))) "u1"
    ≡ₚ Store.messages_of (Scenario.chat_of (rev (take 4 Scenario.eleven))) "u1".
Proof.
  apply (history_query_sorted (Scenario.chat_of (rev (take 4 Scenario.eleven))) "u1").
  vm_compute. lia.
Defined.

(** ** Reading the conversation back *)

Lemma insert_by_snoc {A} (key : A -> Z) (y x : A) (s : list A) :
  key y <= key x ->
  Store.insert_by key y (s ++ [x]) = Store.insert_by key y s ++ [x].
Proof.
  intros Hyx. induction s as [|z s IH]; simpl.
  - replace (key y <=? key x) with true by (symmetry; apply Z.leb_le; exact Hyx).
    reflexivity.
  - destruct (key y <=? key z); [reflexivity|]. rewrite IH. reflexivity.
Qed.

(** A document that is not older than any other one comes last. *)
Lemma order_by_snoc {A} (key : A -> Z) (x : A) (l : list A) :
  Forall (fun z => key z <= key x) l ->
  Store.order_by key (l ++ [x]) = Store.order_by key l ++ [x].
Proof.
  induction 1 as [|z l Hz _ IH]; [reflexivity|].
  simpl. change (foldr _ [] (l ++ [x])) with (Store.order_by key (l ++ [x])).
  rewrite IH. apply insert_by_snoc, Hz.
Qed.

(** X6: With a working store the history is every stored message of the user,
    each once, in ascending time order; it is not cut at ten. *)
Theorem get_chat_history_complete (r : ChatHistory.env) (d : Store.db) (user_id : string) :
  user_id <> "" -> ChatHistory.fault r = None ->
  exists docs,
    ChatHistory.get_chat_history r d user_id
      = ChatHistory.History (ChatHistory.to_item r <$> docs)
    /\ docs ≡ₚ Store.messages_of d user_id
    /\ Sorted (fun a b => Store.timestamp a <= Store.timestamp b) docs.
Proof.
  intros Hu Hf. unfold ChatHistory.get_chat_history.
  rewrite (falsy_nonempty _ Hu), Hf. simpl.
  exists (ChatHistory.query d user_id). split; [reflexivity|].
  split; [apply order_by_perm | apply order_by_sorted].
Qed.

Lemma get_chat_history_complete_witness :
  exists docs,
    ChatHistory.get_chat_history Cases.reader (Scenario.chat_of Scenario.eleven) "u1"
      = ChatHistory.History (ChatHistory.to_item Cases.reader <$> docs)
    /\ docs ≡ₚ Store.messages_of (Scenario.chat_of Scenario.eleven) "u1"
    /\ Sorted (fun a b => Store.timestamp a <= Store.timestamp b) docs.
Proof.
  apply (get_chat_history_complete Cases.reader (Scenario.chat_of Scenario.eleven) "u1").
  - discriminate.
  - reflexivity.
Defined.

(** X7: After a turn whose two writes went through, at times that are not before
    any stored message, the history is the history of before followed by the
    message and the reply returned to the caller. *)
Theorem send_then_history (e : Chat.env) (r : ChatHistory.env) (d : Store.db)
    (user_id message reply : string) (a : json) (t1 t2 : Z) :
  fst (Chat.send_message e d user_id message) = Chat.Reply reply a ->
  Chat.user_write e = Some t1 -> Chat.bot_write e = Some t2 ->
  ChatHistory.fault r = None ->
  Forall (fun m => Store.timestamp m <= t1) (Store.messages_of d user_id) ->
  t1 <= t2 ->
  exists before,
    ChatHistory.get_chat_history r d user_id = ChatHistory.History before
    /\ ChatHistory.get_chat_history r (snd (Chat.send_message e d user_id message)) user_id
       = ChatHistory.History
           (before
              ++ [ ChatHistory.to_item r
                     {| Store.sender := "user"; Store.content := message;
                        Store.timestamp := t1; Store.channel := None |};
                   ChatHistory.to_item r
                     {| Store.sender := "bot"; Store.content := reply;
                        Store.timestamp := t2; Store.channel := None |} ]).
Proof.
  intros Hreply Hw1 Hw2 Hf Hold Ht.
  assert (Hu : Py.falsy user_id = false).
  { unfold Chat.send_message in Hreply.
    destruct (Py.falsy user_id); [discriminate | reflexivity]. }
  unfold ChatHistory.get_chat_history. rewrite Hu, Hf. simpl.
  eexists. split; [reflexivity|]. f_equal. unfold ChatHistory.query.
  rewrite (send_message_persists _ _ _ _ _ _ _ _ Hw1 Hw2 Hreply).
  change (?l ++ [?x; ?y]) with (l ++ [x] ++ [y]).
  rewrite app_assoc, order_by_snoc, order_by_snoc by
    (try (apply Forall_app; split; [|repeat constructor; simpl; lia]);
     eapply Forall_impl; [exact Hold | simpl; intros; lia]).
  rewrite !fmap_app, <- app_assoc. reflexivity.
Qed.

Lemma send_then_history_witness :
  exists before,
    ChatHistory.get_chat_history Cases.reader (Scenario.chat_of Scenario.eleven) "u1"
      = ChatHistory.History before
    /\ ChatHistory.get_chat_history Cases.reader
         (snd (Chat.send_message (Scenario.healthy Scenario.mild_text)
                 (Scenario.chat_of Scenario.eleven) "u1" "hi")) "u1"
       = ChatHistory.History
           (before
              ++ [ ChatHistory.to_item Cases.reader
                     {| Store.sender := "user"; Store.content := "hi";
                        Store.timestamp := 100; Store.channel := None |};
                   ChatHistory.to_item Cases.reader
                     {| Store.sender := "bot"; Store.content := "I hear you.";
                        Store.timestamp := 101; Store.channel := None |} ]).
Proof.
  apply (send_then_history (Scenario.healthy Scenario.mild_text) Cases.reader
           (Scenario.chat_of Scenario.eleven) "u1" "hi" "I hear you."
           (JObj Scenario.mild_fields) 100 101).
  - vm_compute. reflexivity.
  - reflexivity.
  - reflexivity.
  - reflexivity.
  - vm_compute. repeat constructor; discriminate.
  - lia.
Defined.

(** X8: Clearing a conversation of a hundred messages or fewer and reading it
    back gives the empty history. *)
Theorem clear_then_history (r : ChatHistory.env) (d : Store.db) (user_id : string) :
  user_id <> "" -> ChatHistory.fault r = None ->
  (length (Store.messages_of d user_id) <= 100)%nat ->
  ChatHistory.get_chat_history r (snd (Chat.clear_chat_history None d user_id)) user_id
    = ChatHistory.History [].
Proof.
  intros Hu Hf Hlen. unfold ChatHistory.get_chat_history, ChatHistory.query.
  rewrite (falsy_nonempty _ Hu), Hf.
  destruct (clear_chat_history_small d user_id Hu Hlen) as [_ ->]. reflexivity.
Qed.

Lemma clear_then_history_witness :
  ChatHistory.get_chat_history Cases.reader
    (snd (Chat.clear_chat_history None (Scenario.chat_of Scenario.eleven) "u1")) "u1"
    = ChatHistory.History [].
Proof.
  apply (clear_then_history Cases.reader (Scenario.chat_of Scenario.eleven) "u1").
  - discriminate.
  - reflexivity.
  - vm_compute. lia.
Defined.

(** X9: Each call removes the next hundred messages: after [k] calls the first
    [100 * k] are gone, so a conversation of [n] messages is empty once
    [100 * k >= n]. *)
Theorem clear_chat_history_repeated (k : nat) (d : Store.db) (user_id : string) :
  user_id <> "" ->
  Store.messages_of (Cases.clear_repeatedly k d user_id) user_id
    = drop (100 * k) (Store.messages_of d user_id)
  /\ ((length (Store.messages_of d user_id) <= 100 * k)%nat ->
      Store.messages_of (Cases.clear_repeatedly k d user_id) user_id = []).
Proof.
  intros Hu.
  assert (Hdrop : Store.messages_of (Cases.clear_repeatedly k d user_id) user_id
                  = drop (100 * k) (Store.messages_of d user_id)).
  { induction k as [|k IH]; [reflexivity|].
    unfold Cases.clear_repeatedly in *. simpl Nat.iter.
    destruct (clear_chat_history_batch
                (Nat.iter k (fun d => snd (Chat.clear_chat_history None d user_id)) d)
                user_id Hu) as [_ ->].
    rewrite IH, drop_drop. f_equal. lia. }
  split; [exact Hdrop|]. intros Hlen. rewrite Hdrop. apply drop_ge. exact Hlen.
Qed.

Lemma clear_chat_history_repeated_witness :
  Store.messages_of
    (Cases.clear_repeatedly 2 (Scenario.chat_of (Scenario.many 101)) "u1") "u1"
    = drop (100 * 2) (Store.messages_of (Scenario.chat_of (Scenario.many 101)) "u1")
  /\ Store.messages_of
       (Cases.clear_repeatedly 2 (Scenario.chat_of (Scenario.many 101)) "u1") "u1" = [].
Proof.
  destruct (clear_chat_history_repeated 2 (Scenario.chat_of (Scenario.many 101)) "u1")
    as [Hdrop Hempty]; [discriminate|].
  split; [exact Hdrop|]. apply Hempty. vm_compute. lia.
Defined.

Lemma clear_chat_history_others_witness :
  Store.messages_of
    (snd (Chat.clear_chat_history (Some 3%nat) (Scenario.chat_of Scenario.eleven) "u2")) "u1"
    = Store.messages_of (Scenario.chat_of Scenario.eleven) "u1".
Proof.
  apply (clear_chat_history_others (Some 3%nat) (Scenario.chat_of Scenario.eleven) "u2" "u1").
  discriminate.
Defined.

(** ** What an SMS or WhatsApp turn writes *)

(** X11: With the store working and an assessment that can be compared with the
    threshold, the turn appends to the conversation of the sender the inbound
    message and the text it returns, both tagged with the message type. *)
Theorem sms_turn_persists (e : Twilio.env) (d : Store.db)
    (from_number body message_type : string) (t1 t2 : Z) (high : bool) :
  Chat.read_fault (Twilio.services e) = None ->
  Chat.user_write (Twilio.services e) = Some t1 ->
  Chat.bot_write (Twilio.services e) = Some t2 ->
  Chat.high_risk
    (OpenAIService.assess_crisis_risk (Chat.json_loads (Twilio.services e))
       (Chat.classifier_call (Twilio.services e)) body) = Some high ->
  Store.messages_of
    (snd (Twilio.process_incoming_message e d from_number body message_type))
    (Twilio.resolve_user e)
  = Store.messages_of d (Twilio.resolve_user e)
      ++ [ {| Store.sender := "user"; Store.content := body;
              Store.timestamp := t1; Store.channel := Some message_type |};
           {| Store.sender := "bot";
              Store.content :=
                fst (Twilio.process_incoming_message e d from_number body message_type);
              Store.timestamp := t2; Store.channel := Some message_type |} ].
Proof.
  intros Hr Hw1 Hw2 Hrisk. unfold Twilio.process_incoming_message.
  rewrite Hr. simpl. unfold Twilio.store. rewrite Hw1, Hrisk, Hw2. simpl.
  unfold Store.messages_of at 1. simpl. rewrite lookup_insert_eq. simpl.
  unfold Store.messages_of at 1. simpl. rewrite lookup_insert_eq. simpl.
  rewrite <- app_assoc. reflexivity.
Qed.

Lemma sms_turn_persists_witness :
  Store.messages_of
    (snd (Twilio.process_incoming_message
            (Scenario.sms (Scenario.healthy Scenario.suicidal_text)) Scenario.no_db
            "+15550100" "hi" "sms"))
    (Twilio.resolve_user (Scenario.sms (Scenario.healthy Scenario.suicidal_text)))
  = Store.messages_of Scenario.no_db
      (Twilio.resolve_user (Scenario.sms (Scenario.healthy Scenario.suicidal_text)))
      ++ [ {| Store.sender := "user"; Store.content := "hi";
              Store.timestamp := 100; Store.channel := Some "sms" |};
           {| Store.sender := "bot";
              Store.content :=
                fst (Twilio.process_incoming_message
                       (Scenario.sms (Scenario.healthy Scenario.suicidal_text))
                       Scenario.no_db "+15550100" "hi" "sms");
              Store.timestamp := 101; Store.channel := Some "sms" |} ].
Proof.
  apply (sms_turn_persists (Scenario.sms (Scenario.healthy Scenario.suicidal_text))
           Scenario.no_db "+15550100" "hi" "sms" 100 101 true).
  - reflexivity.
  - reflexivity.
  - reflexivity.
  - vm_compute. reflexivity.
Defined.

(** X12: When the turn fails after the inbound message was written (the write of
    the reply raises, or the assessment cannot be compared with the
    threshold), the sender receives the processing-failure sentence and the
    inbound message stays stored, without a reply. *)
Theorem sms_turn_failure_keeps_inbound (e : Twilio.env) (d : Store.db)
    (from_number body message_type : string) (t1 : Z) :
  Chat.read_fault (Twilio.services e) = None ->
  Chat.user_write (Twilio.services e) = Some t1 ->
  Chat.bot_write (Twilio.services e) = None
  \/ Chat.high_risk
       (OpenAIService.assess_crisis_risk (Chat.json_loads (Twilio.services e))
          (Chat.classifier_call (Twilio.services e)) body) = None ->
  fst (Twilio.process_incoming_message e d from_number body message_type)
    = Twilio.processing_fallback
  /\ Store.messages_of
       (snd (Twilio.process_incoming_message e d from_number body message_type))
       (Twilio.resolve_user e)
     = Store.messages_of d (Twilio.resolve_user e)
         ++ [ {| Store.sender := "user"; Store.content := body;
                 Store.timestamp := t1; Store.channel := Some message_type |} ].
Proof.
  intros Hr Hw1 Hfail. unfold Twilio.process_incoming_message.
  rewrite Hr. simpl. unfold Twilio.store. rewrite Hw1.
  assert (Hstored :
    Store.messages_of
      (Store.add_message d (Twilio.resolve_user e)
         {| Store.sender := "user"; Store.content := body;
            Store.timestamp := t1; Store.channel := Some message_type |})
      (Twilio.resolve_user e)
    = Store.messages_of d (Twilio.resolve_user e)
        ++ [ {| Store.sender := "user"; Store.content := body;
                Store.timestamp := t1; Store.channel := Some message_type |} ]).
  { unfold Store.messages_of at 1. simpl. rewrite lookup_insert_eq. reflexivity. }
  destruct (Chat.high_risk _) as [high|] eqn:Hrisk.
  - destruct Hfail as [Hw2 | Hnone]; [|discriminate].
    rewrite Hw2. split; [reflexivity | exact Hstored].
  - split; [reflexivity | exact Hstored].
Qed.

Lemma sms_turn_failure_keeps_inbound_witness :
  fst (Twilio.process_incoming_message
         (Scenario.sms (Scenario.healthy Scenario.vague_text)) Scenario.no_db
         "+15550100" "hi" "sms")
    = Twilio.processing_fallback
  /\ Store.messages_of
       (snd (Twilio.process_incoming_message
               (Scenario.sms (Scenario.healthy Scenario.vague_text)) Scenario.no_db
               "+15550100" "hi" "sms"))
       (Twilio.resolve_user (Scenario.sms (Scenario.healthy Scenario.vague_text)))
     = Store.messages_of Scenario.no_db
         (Twilio.resolve_user (Scenario.sms (Scenario.healthy Scenario.vague_text)))
         ++ [ {| Store.sender := "user"; Store.content := "hi";
                 Store.timestamp := 100; Store.channel := Some "sms" |} ].
Proof.
  apply (sms_turn_failure_keeps_inbound
           (Scenario.sms (Scenario.healthy Scenario.vague_text)) Scenario.no_db
           "+15550100" "hi" "sms" 100).
  - reflexivity.
  - reflexivity.
  - right. vm_compute. reflexivity.
Defined.

(** ** Users of the SMS and WhatsApp channel *)

Lemma clean_whatsapp (number : string) :
  TwilioService.clean ("whatsapp:" +:+ number) = TwilioService.clean number.
Proof. destruct number; vm_compute; reflexivity. Qed.

(** X13: A number is looked up the same way whether it arrives with the prefix
    of the WhatsApp channel or without it: both channels share the user. *)
Theorem same_number_same_user (e : TwilioService.env) (a : Accounts.db) (number : string) :
  TwilioService.get_user_id_from_phone e a ("whatsapp:" +:+ number)
    = TwilioService.get_user_id_from_phone e a number.
Proof.
  unfold TwilioService.get_user_id_from_phone. rewrite clean_whatsapp. reflexivity.
Qed.

Lemma find_after_set (clean_number id : string) (doc : gmap string Accounts.field)
    (c : list (string * gmap string Accounts.field)) :
  List.find (TwilioService.has_phone clean_number) c = None ->
  TwilioService.has_phone clean_number (id, doc) = true ->
  List.find (TwilioService.has_phone clean_number) (Accounts.set c id doc) = Some (id, doc).
Proof.
  intros Hnone Hdoc. induction c as [|[id' doc'] c IH]; simpl in *.
  - rewrite Hdoc. reflexivity.
  - destruct (TwilioService.has_phone clean_number (id', doc')) eqn:E; [discriminate|].
    destruct (String.eqb id id'); simpl.
    + rewrite Hdoc. reflexivity.
    + rewrite E. apply IH, Hnone.
Qed.

(** X14: When no user has the number and the user document is written, the next
    lookup of that number, with or without the WhatsApp prefix, finds the new
    document under the id of [document()].  This is so even when the write of
    the settings raised, in which case the turn itself ran under a temporary
    id. *)
Theorem created_user_is_found (e : TwilioService.env) (a : Accounts.db)
    (phone_number again : string) (t : Z) :
  TwilioService.lookup_ok e = true ->
  TwilioService.user_write e = Some t ->
  TwilioService.get_user_id_from_phone e a phone_number = None ->
  TwilioService.clean again = TwilioService.clean phone_number ->
  TwilioService.get_user_id_from_phone e
    (snd (TwilioService.create_user_for_phone e a phone_number)) again
    = Some (TwilioService.fresh_id e)
  /\ fst (TwilioService.create_user_for_phone e a phone_number)
     = if TwilioService.settings_write e
       then TwilioService.fresh_id e
       else "temp-" +:+ TwilioService.uuid4 e.
Proof.
  intros Hok Hw Hnone Hclean.
  unfold TwilioService.get_user_id_from_phone in *. rewrite Hok in *.
  destruct (List.find _ (Accounts.users a)) as [found|] eqn:Hfind; [discriminate|].
  unfold TwilioService.create_user_for_phone. rewrite Hw, Hclean.
  assert (Hfound :
    List.find (TwilioService.has_phone (TwilioService.clean phone_number))
      (Accounts.set (Accounts.users a) (TwilioService.fresh_id e)
         (TwilioService.user_data phone_number t))
    = Some (TwilioService.fresh_id e, TwilioService.user_data phone_number t)).
  { apply find_after_set; [exact Hfind|].
    unfold TwilioService.has_phone, TwilioService.user_data. simpl.
    rewrite lookup_insert_eq. apply String.eqb_refl. }
  destruct (TwilioService.settings_write e); simpl; rewrite Hfound; split; reflexivity.
Qed.

Lemma created_user_is_found_witness :
  TwilioService.get_user_id_from_phone Cases.sms_settings_down
    (snd (TwilioService.create_user_for_phone Cases.sms_settings_down Cases.no_accounts
            "+15550100"))
    "whatsapp:+15550100"
    = Some "u7"
  /\ fst (TwilioService.create_user_for_phone Cases.sms_settings_down Cases.no_accounts
            "+15550100")
     = "temp-0000".
Proof.
  apply (created_user_is_found Cases.sms_settings_down Cases.no_accounts
           "+15550100" "whatsapp:+15550100" 50).
  - reflexivity.
  - reflexivity.
  - reflexivity.
  - reflexivity.
Defined.

(** ** The footprint of [log_mood] *)

Lemma log_mood_valid_witness :
  exists ins,
    fst (Mood.log_mood Scenario.mood_env Scenario.no_db (Scenario.scored 7))
      = Mood.Logged "Mood logged successfully" ins
    /\ Store.moods_of (snd (Mood.log_mood Scenario.mood_env Scenario.no_db (Scenario.scored 7)))
         (Mood.userId (Scenario.scored 7))
       = Store.moods_of Scenario.no_db (Mood.userId (Scenario.scored 7))
           ++ [ {| Store.score := Some 7; Store.label := Mood.label (Scenario.scored 7);
                   Store.notes := Mood.notes (Scenario.scored 7);
                   Store.logged := 1000000 |} ].
Proof.
  apply (log_mood_valid Scenario.mood_env Scenario.no_db (Scenario.scored 7) 7 1000000).
  - discriminate.
  - reflexivity.
  - lia.
  - reflexivity.
Defined.

(** X17: A request answered with an error leaves the store as it was; a request
    answered with success changes nothing but the mood log of its user. *)
Theorem log_mood_footprint (e : Mood.env) (d : Store.db) (r : Mood.request) :
  (forall status error,
     fst (Mood.log_mood e d r) = Mood.Error status error -> snd (Mood.log_mood e d r) = d)
  /\ Store.chats (snd (Mood.log_mood e d r)) = Store.chats d
  /\ (forall other,
        other <> Mood.userId r ->
        Store.moods_of (snd (Mood.log_mood e d r)) other = Store.moods_of d other).
Proof.
  unfold Mood.log_mood.
  destruct (Py.falsy (Mood.userId r) || Mood.is_none (Mood.score r));
    [repeat split; reflexivity|].
  destruct (Mood.int (Mood.score r)) as [n| |]; try (repeat split; reflexivity).
  destruct ((n <? 1) || (n >? 10)); [repeat split; reflexivity|].
  destruct (Mood.add e) as [t|]; [|repeat split; reflexivity].
  simpl. split; [discriminate|]. split; [reflexivity|].
  intros other Hne. unfold Store.moods_of. simpl.
  rewrite lookup_insert_ne by congruence. reflexivity.
Qed.

Lemma log_mood_footprint_witness :
  snd (Mood.log_mood Scenario.mood_env (Scenario.chat_of Scenario.eleven) (Scenario.scored 11))
    = Scenario.chat_of Scenario.eleven
  /\ Store.moods_of
       (snd (Mood.log_mood Scenario.mood_env (Scenario.chat_of Scenario.eleven)
               (Scenario.scored 7))) "u2"
     = Store.moods_of (Scenario.chat_of Scenario.eleven) "u2".
Proof.
  split.
  - destruct (log_mood_footprint Scenario.mood_env (Scenario.chat_of Scenario.eleven)
                (Scenario.scored 11)) as (Herr & _).
    apply (Herr 400 "Mood score must be between 1 and 10"). reflexivity.
  - destruct (log_mood_footprint Scenario.mood_env (Scenario.chat_of Scenario.eleven)
                (Scenario.scored 7)) as (_ & _ & Hother).
    apply Hother. discriminate.
Defined.

(** X18: If every stored mood entry has a score between 1 and 10, this is still so
    after any request, whatever its score field holds. *)
Theorem log_mood_keeps_scores_in_range (e : Mood.env) (d : Store.db) (r : Mood.request) :
  (forall user_id m, m ∈ Store.moods_of d user_id ->
     exists s, Store.score m = Some s /\ 1 <= s <= 10) ->
  forall user_id m, m ∈ Store.moods_of (snd (Mood.log_mood e d r)) user_id ->
    exists s, Store.score m = Some s /\ 1 <= s <= 10.
Proof.
  intros Hinv user_id m.
  destruct (log_mood_persists_in_range e d r) as [-> | (s & t & Hs & ->)];
    [apply Hinv|].
  unfold Store.moods_of at 1. simpl.
  destruct (decide (Mood.userId r = user_id)) as [<- | Hne].
  - rewrite lookup_insert_eq. simpl. intros Hm. apply elem_of_app in Hm.
    destruct Hm as [Hm | Hm]; [exact (Hinv _ _ Hm)|].
    apply list_elem_of_singleton in Hm. subst m. exists s. split; [reflexivity | exact Hs].
  - rewrite lookup_insert_ne by exact Hne. apply Hinv.
Qed.

Lemma log_mood_keeps_scores_in_range_witness :
  exists s,
    Store.score
      {| Store.score := Some 10; Store.label := Some "calm"; Store.notes := "";
         Store.logged := 1000000 |} = Some s
    /\ 1 <= s <= 10.
Proof.
  apply (log_mood_keeps_scores_in_range Scenario.mood_env (Cases.moods_of_scores [3; 9])
           Scenario.fractional) with (user_id := "u1").
  - intros user_id m. unfold Store.moods_of, Cases.moods_of_scores. simpl.
    destruct (decide ("u1" = user_id)) as [<- | Hne].
    + rewrite lookup_singleton_eq. simpl. intros Hm.
      apply elem_of_cons in Hm.
      destruct Hm as [-> | Hm]; [exists 3; split; [reflexivity | lia]|].
      apply list_elem_of_singleton in Hm. subst m. exists 9. split; [reflexivity | lia].
    + rewrite lookup_singleton_ne by exact Hne. simpl. intros Hm. inversion Hm.
  - vm_compute. right. right. left.
Defined.

(** ** Insights after a log *)

Lemma window_length (e : Mood.env) (d : Store.db) (user_id : string) :
  length (Mood.window e d user_id)
  = length (filter (fun m => Mood.now e - Mood.seven_days <= Store.logged m)
              (Store.moods_of d user_id)).
Proof. unfold Mood.window. apply Permutation_length, order_by_perm. Qed.

(** X19: The insight returned with a successful log counts the entry just stored,
    provided its server time lies in the window of seven days: a user with two
    entries in the window receives a trend with the third log, and a user
    with fewer receives the request to log more. *)
Theorem log_mood_insight_counts_new_entry (e : Mood.env) (d : Store.db)
    (r : Mood.request) (s t : Z) :
  Mood.userId r <> "" -> Mood.score r = JInt s -> 1 <= s <= 10 ->
  Mood.add e = Some t -> Mood.query_ok e = true ->
  Mood.now e - Mood.seven_days <= t ->
  exists ins,
    fst (Mood.log_mood e d r) = Mood.Logged "Mood logged successfully" ins
    /\ ((2 <= length (Mood.window e d (Mood.userId r)))%nat ->
        exists tr, Mood.trends ins = Some tr)
    /\ ((length (Mood.window e d (Mood.userId r)) < 2)%nat -> ins = Mood.not_enough).
Proof.
  intros Hu Hs Hrange Hadd Hq Ht. unfold Mood.log_mood.
  rewrite (falsy_nonempty _ Hu), Hs. simpl.
  replace (s <? 1) with false by (symmetry; apply Z.ltb_ge; lia).
  replace (s >? 10) with false by (symmetry; rewrite Z.gtb_ltb; apply Z.ltb_ge; lia).
  simpl. rewrite Hadd. eexists. split; [reflexivity|].
  unfold Mood.generate_mood_insights. rewrite Hq.
  set (d' := Store.add_mood d (Mood.userId r) _).
  assert (Hlen : length (Mood.window e d' (Mood.userId r))
                 = S (length (Mood.window e d (Mood.userId r)))).
  { rewrite !window_length. subst d'. unfold Store.moods_of at 1. simpl.
    rewrite lookup_insert_eq. simpl. rewrite filter_app, length_app.
    rewrite filter_cons_True by (simpl; exact Ht). simpl. lia. }
  split.
  - intros H2.
    destruct (compute_insight_enough (Mood.window e d' (Mood.userId r))) as (tr & _ & ->);
      [lia|]. simpl. eexists. reflexivity.
  - intros H2. unfold Mood.compute_insight.
    replace (length (Mood.window e d' (Mood.userId r)) <? 3)%nat with true
      by (symmetry; apply Nat.ltb_lt; lia).
    reflexivity.
Qed.

Lemma log_mood_insight_counts_new_entry_witness :
  exists ins,
    fst (Mood.log_mood Cases.soon (Cases.moods_of_scores [3; 9]) (Scenario.scored 7))
      = Mood.Logged "Mood logged successfully" ins
    /\ exists tr, Mood.trends ins = Some tr.
Proof.
  destruct (log_mood_insight_counts_new_entry Cases.soon
              (Cases.moods_of_scores [3; 9]) (Scenario.scored 7) 7 100)
    as (ins & Hlog & Htrend & _).
  - discriminate.
  - reflexivity.
  - lia.
  - reflexivity.
  - reflexivity.
  - vm_compute. discriminate.
  - exists ins. split; [exact Hlog|]. apply Htrend. vm_compute. lia.
Defined.

(** ** Trends of monotone sequences *)

(** X20: On three or more entries, scores that rise strictly from each entry to
    the next give the trend improving, scores that fall strictly give
    declining, and scores that are all equal give stable. *)
Theorem monotone_scores_trend (entries : list Store.mood) :
  (3 <= length entries)%nat ->
  (StronglySorted Z.lt ((fun e => default 5 (Store.score e)) <$> entries) ->
   Mood.trend_direction <$> Mood.trends (Mood.compute_insight entries) = Some Mood.improving)
  /\ (StronglySorted Z.gt ((fun e => default 5 (Store.score e)) <$> entries) ->
      Mood.trend_direction <$> Mood.trends (Mood.compute_insight entries)
        = Some Mood.declining)
  /\ ((forall x y, x ∈ (fun e => default 5 (Store.score e)) <$> entries ->
                   y ∈ (fun e => default 5 (Store.score e)) <$> entries -> x = y) ->
      Mood.trend_direction <$> Mood.trends (Mood.compute_insight entries) = Some Mood.stable).
Proof.
  intros H.
  destruct (compute_insight_enough entries H) as (t & Ht & ->). simpl.
  destruct (three_or_more ((fun e => default 5 (Store.score e)) <$> entries))
    as (f & mid & p & l & Hshape); [rewrite length_fmap; exact H|].
  rewrite Hshape in *. rewrite classify_ends in Ht. injection Ht as <-.
  assert (Hp : p ∈ mid ++ [p; l]) by (apply elem_of_app; right; left).
  assert (Hl : l ∈ mid ++ [p; l]) by (apply elem_of_app; right; right; left).
  split; [|split].
  - intros Hs. apply StronglySorted_inv in Hs. destruct Hs as [_ Hall].
    rewrite Forall_forall in Hall.
    pose proof (Hall p Hp). pose proof (Hall l Hl).
    replace (l >? f) with true by (symmetry; rewrite Z.gtb_ltb; apply Z.ltb_lt; lia).
    replace (p >? f) with true by (symmetry; rewrite Z.gtb_ltb; apply Z.ltb_lt; lia).
    reflexivity.
  - intros Hs. apply StronglySorted_inv in Hs. destruct Hs as [_ Hall].
    rewrite Forall_forall in Hall.
    pose proof (Hall p Hp). pose proof (Hall l Hl).
    replace (l >? f) with false by (symmetry; rewrite Z.gtb_ltb; apply Z.ltb_ge; lia).
    replace (l <? f) with true by (symmetry; apply Z.ltb_lt; lia).
    replace (p <? f) with true by (symmetry; apply Z.ltb_lt; lia).
    reflexivity.
  - intros Heq.
    assert (l = f) as -> by (apply Heq; [right; exact Hl | left]).
    rewrite Z.gtb_ltb, Z.ltb_irrefl. reflexivity.
Qed.

Lemma monotone_scores_trend_witness :
  Mood.trend_direction <$> Mood.trends (Mood.compute_insight (Scenario.entries [2; 4; 5; 9]))
    = Some Mood.improving
  /\ Mood.trend_direction <$> Mood.trends (Mood.compute_insight (Scenario.entries [9; 5; 4; 2]))
     = Some Mood.declining
  /\ Mood.trend_direction <$> Mood.trends (Mood.compute_insight (Scenario.entries [6; 6; 6]))
     = Some Mood.stable.
Proof.
  split; [|split].
  - destruct (monotone_scores_trend (Scenario.entries [2; 4; 5; 9])) as (Hup & _);
      [simpl; lia|].
    apply Hup. simpl. repeat constructor; lia.
  - destruct (monotone_scores_trend (Scenario.entries [9; 5; 4; 2])) as (_ & Hdown & _);
      [simpl; lia|].
    apply Hdown. simpl. repeat constructor; lia.
  - destruct (monotone_scores_trend (Scenario.entries [6; 6; 6])) as (_ & _ & Hflat);
      [simpl; lia|].
    apply Hflat. simpl. intros x y Hx Hy.
    repeat (apply elem_of_cons in Hx; destruct Hx as [-> | Hx]);
      repeat (apply elem_of_cons in Hy; destruct Hy as [-> | Hy]);
      try reflexivity; try (inversion Hx); try (inversion Hy).
Defined.

(** ** Statistics *)

Lemma sum_bounds (lo hi : Z) (scores : list Z) :
  Forall (fun x => lo <= x <= hi) scores ->
  lo * Z.of_nat (length scores) <= Py.sum scores <= hi * Z.of_nat (length scores).
Proof.
  induction 1 as [|x l Hx _ IH]; simpl; [lia|].
  unfold Py.sum in *. simpl. lia.
Qed.

Lemma mean_bounds (lo hi : Z) (scores : list Z) :
  scores <> [] -> Forall (fun x => lo <= x <= hi) scores ->
  (Q2Qc (inject_Z lo) <= Mood.mean scores)%Qc /\ (Mood.mean scores <= Q2Qc (inject_Z hi))%Qc.
Proof.
  intros Hne Hall. pose proof (sum_bounds lo hi scores Hall) as [Hlo Hhi].
  assert (Hlen : Z.pos (Pos.of_nat (length scores)) = Z.of_nat (length scores)).
  { destruct scores as [|x l]; [congruence|].
    rewrite <- (positive_nat_Z (Pos.of_nat (length (x :: l)))).
    rewrite Nat2Pos.id by (simpl; lia). reflexivity. }
  unfold Mood.mean, Qcle. simpl. rewrite !Qred_correct.
  unfold Qle. simpl. rewrite Hlen. lia.
Qed.

(** X21: On a non-empty list of entries the average lies between the lowest and
    the highest score. *)
Theorem statistics_bounds (mood_entries : list Mood.row) :
  mood_entries <> [] ->
  exists a h l,
    Mood.calculate_mood_statistics mood_entries
      = {| Mood.average := Some a; Mood.highest := Some h; Mood.lowest := Some l;
           Mood.count := length mood_entries |}
    /\ (Q2Qc (inject_Z l) <= a)%Qc /\ (a <= Q2Qc (inject_Z h))%Qc /\ l <= h.
Proof.
  intros Hne. unfold Mood.calculate_mood_statistics.
  destruct mood_entries as [|r rows]; [congruence|].
  remember ((fun entry => default 0 (Mood.row_score entry)) <$> r :: rows) as scores
    eqn:Hscores.
  assert (Hlen : length scores = length (r :: rows)) by (subst scores; apply length_fmap).
  destruct scores as [|s scores]; [discriminate|].
  exists (Mood.mean (s :: scores)), (foldl Z.max s scores), (foldl Z.min s scores).
  rewrite Hlen. split; [reflexivity|].
  destruct (foldl_max_spec scores s) as [Hmax_in Hmax].
  destruct (foldl_min_spec scores s) as [Hmin_in Hmin].
  destruct (mean_bounds (foldl Z.min s scores) (foldl Z.max s scores) (s :: scores))
    as [Hlo Hhi]; [discriminate | |].
  - apply Forall_forall. intros x Hx. split; [apply Hmin | apply Hmax]; exact Hx.
  - split; [exact Hlo|]. split; [exact Hhi|]. apply Hmax, Hmin_in.
Qed.

Lemma statistics_bounds_witness :
  exists a h l,
    Mood.calculate_mood_statistics (Scenario.rows [4; 9; 1])
      = {| Mood.average := Some a; Mood.highest := Some h; Mood.lowest := Some l;
           Mood.count := length (Scenario.rows [4; 9; 1]) |}
    /\ (Q2Qc (inject_Z l) <= a)%Qc /\ (a <= Q2Qc (inject_Z h))%Qc /\ l <= h.
Proof.
  apply (statistics_bounds (Scenario.rows [4; 9; 1])). discriminate.
Defined.

Lemma sum_perm (l l' : list Z) : l ≡ₚ l' -> Py.sum l = Py.sum l'.
Proof.
  unfold Py.sum. induction 1; simpl; lia.
Qed.

Lemma maximum_perm (l l' : list Z) : l ≡ₚ l' -> Mood.maximum l = Mood.maximum l'.
Proof.
  intros Hp. destruct l as [|x l], l' as [|y l']; simpl.
  - reflexivity.
  - apply Permutation_nil_l in Hp. discriminate.
  - apply Permutation_nil_r in Hp. discriminate.
  - destruct (foldl_max_spec l x) as [Hin Hub], (foldl_max_spec l' y) as [Hin' Hub'].
    f_equal. apply Z.le_antisymm.
    + apply Hub'. rewrite <- Hp. exact Hin.
    + apply Hub. rewrite Hp. exact Hin'.
Qed.

Lemma minimum_perm (l l' : list Z) : l ≡ₚ l' -> Mood.minimum l = Mood.minimum l'.
Proof.
  intros Hp. destruct l as [|x l], l' as [|y l']; simpl.
  - reflexivity.
  - apply Permutation_nil_l in Hp. discriminate.
  - apply Permutation_nil_r in Hp. discriminate.
  - destruct (foldl_min_spec l x) as [Hin Hlb], (foldl_min_spec l' y) as [Hin' Hlb'].
    f_equal. apply Z.le_antisymm.
    + apply Hlb. rewrite Hp. exact Hin'.
    + apply Hlb'. rewrite <- Hp. exact Hin.
Qed.

(** X22: The statistics do not depend on the order of the entries. *)
Theorem statistics_permutation (mood_entries mood_entries' : list Mood.row) :
  mood_entries ≡ₚ mood_entries' ->
  Mood.calculate_mood_statistics mood_entries
    = Mood.calculate_mood_statistics mood_entries'.
Proof.
  intros Hp.
  assert (Hs : (fun entry => default 0 (Mood.row_score entry)) <$> mood_entries
               ≡ₚ (fun entry => default 0 (Mood.row_score entry)) <$> mood_entries')
    by (apply fmap_Permutation; exact Hp).
  unfold Mood.calculate_mood_statistics.
  destruct mood_entries as [|r rows], mood_entries' as [|r' rows'].
  - reflexivity.
  - apply Permutation_nil_l in Hp. discriminate.
  - apply Permutation_nil_r in Hp. discriminate.
  - unfold Mood.mean.
    rewrite (sum_perm _ _ Hs), (maximum_perm _ _ Hs), (minimum_perm _ _ Hs),
      (Permutation_length Hs).
    reflexivity.
Qed.

Lemma statistics_permutation_witness :
  Mood.calculate_mood_statistics (Scenario.rows [4; 9; 1])
    = Mood.calculate_mood_statistics (Scenario.rows [1; 4; 9]).
Proof.
  apply (statistics_permutation (Scenario.rows [4; 9; 1]) (Scenario.rows [1; 4; 9])).
  simpl. symmetry. exact (Permutation_cons_append [_; _] _).
Defined.

(** ** [get_mood_history] *)

Lemma strongly_sorted_snoc {A} (R : A -> A -> Prop) (x : A) (l : list A) :
  StronglySorted R l -> Forall (fun y => R y x) l -> StronglySorted R (l ++ [x]).
Proof.
  induction 1 as [|y l Hs IH Hall]; intros Hx; simpl.
  - repeat constructor.
  - apply Forall_cons in Hx. destruct Hx as [Hyx Hx].
    constructor; [apply IH, Hx|].
    apply Forall_app. split; [exact Hall | repeat constructor; exact Hyx].
Qed.

(** Reversing an ascending list gives a descending one. *)
Lemma sorted_rev {A} (key : A -> Z) (l : list A) :
  Sorted (fun a b => key a <= key b) l ->
  Sorted (fun a b => key b <= key a) (rev l).
Proof.
  intros Hs. apply StronglySorted_Sorted.
  apply Sorted_StronglySorted in Hs; [|intros a b c; simpl; lia].
  induction Hs as [|x l Hs IH Hall]; simpl; [constructor|].
  apply strongly_sorted_snoc; [exact IH|].
  apply Forall_rev. exact Hall.
Qed.

(** X23: A successful answer lists exactly the stored entries of the user that
    pass the date filters, each once, newest first; every one of them has a
    score, and the count of the statistics is their number. *)
Theorem get_mood_history_entries (e : MoodHistory.env) (d : Store.db)
    (user_id : string) (q : MoodHistory.args)
    (entries : list Mood.row) (statistics : Mood.statistics) :
  MoodHistory.get_mood_history e d user_id q = MoodHistory.Entries entries statistics ->
  exists since until docs,
    MoodHistory.date_filters e q = MoodHistory.Range since until
    /\ entries = MoodHistory.to_row e <$> docs
    /\ docs ≡ₚ List.filter (MoodHistory.within since until) (Store.moods_of d user_id)
    /\ Sorted (fun a b => Store.logged b <= Store.logged a) docs
    /\ Forall (fun m => exists s, Store.score m = Some s) docs
    /\ Mood.count statistics = length entries.
Proof.
  unfold MoodHistory.get_mood_history.
  destruct (Py.falsy user_id); [discriminate|].
  destruct (MoodHistory.date_filters e q) as [since until| |]; try discriminate.
  destruct (MoodHistory.query_ok e); [|discriminate].
  destruct (forallb _ _) eqn:Hscored; [|discriminate].
  intros [= <- <-].
  exists since, until, (MoodHistory.query since until d user_id).
  split; [reflexivity|]. split; [reflexivity|]. unfold MoodHistory.query in *.
  split; [|split; [|split]].
  - rewrite <- Permutation_rev. apply order_by_perm.
  - apply sorted_rev, order_by_sorted.
  - apply Forall_forall. intros m Hm. apply list_elem_of_In in Hm.
    rewrite forallb_forall in Hscored. specialize (Hscored m Hm).
    unfold MoodHistory.has_score in Hscored.
    destruct (Store.score m) as [s|]; [exists s; reflexivity | discriminate].
  - unfold Mood.calculate_mood_statistics.
    destruct (MoodHistory.to_row e <$> _) eqn:E; [reflexivity|].
    simpl. rewrite length_fmap. reflexivity.
Qed.

Lemma get_mood_history_entries_witness :
  exists since until docs,
    MoodHistory.date_filters Cases.mood_reader Cases.all_entries
      = MoodHistory.Range since until
    /\ MoodHistory.to_row Cases.mood_reader <$> rev (Scenario.entries [3; 9; 4])
       = MoodHistory.to_row Cases.mood_reader <$> docs
    /\ docs ≡ₚ List.filter (MoodHistory.within since until)
                 (Store.moods_of (Cases.moods_of_scores [3; 9; 4]) "u1")
    /\ Sorted (fun a b => Store.logged b <= Store.logged a) docs
    /\ Forall (fun m => exists s, Store.score m = Some s) docs
    /\ Mood.count (Mood.calculate_mood_statistics (Scenario.rows [4; 9; 3]))
       = length (MoodHistory.to_row Cases.mood_reader <$> rev (Scenario.entries [3; 9; 4])).
Proof.
  apply (get_mood_history_entries Cases.mood_reader (Cases.moods_of_scores [3; 9; 4]) "u1"
           Cases.all_entries).
  vm_compute. reflexivity.
Defined.

(** X24: One stored entry without a score, if it passes the date filters, makes
    the whole request fail: no entry is returned. *)
Theorem get_mood_history_unscored_entry (e : MoodHistory.env) (d : Store.db)
    (user_id : string) (q : MoodHistory.args) (since until : option Z) (m : Store.mood) :
  user_id <> "" ->
  MoodHistory.date_filters e q = MoodHistory.Range since until ->
  m ∈ Store.moods_of d user_id ->
  MoodHistory.within since until m = true ->
  Store.score m = None ->
  MoodHistory.get_mood_history e d user_id q
    = MoodHistory.Error 500 "Failed to retrieve mood history".
Proof.
  intros Hu Hf Hm Hin Hnone. unfold MoodHistory.get_mood_history.
  rewrite (falsy_nonempty _ Hu), Hf.
  destruct (MoodHistory.query_ok e); [|reflexivity].
  destruct (forallb _ _) eqn:Hscored; [|reflexivity].
  rewrite forallb_forall in Hscored.
  assert (Hq : In m (MoodHistory.query since until d user_id)).
  { unfold MoodHistory.query. apply list_elem_of_In.
    rewrite <- Permutation_rev, order_by_perm. apply list_elem_of_In.
    apply filter_In. split; [apply list_elem_of_In, Hm | exact Hin]. }
  specialize (Hscored m Hq). unfold MoodHistory.has_score in Hscored.
  rewrite Hnone in Hscored. discriminate.
Qed.

Lemma get_mood_history_unscored_entry_witness :
  MoodHistory.get_mood_history Cases.mood_reader
    {| Store.chats := ∅;
       Store.moods := {[ "u1" := Scenario.entries [3; 9] ++ [Cases.unscored 5] ]} |}
    "u1" Cases.all_entries
  = MoodHistory.Error 500 "Failed to retrieve mood history".
Proof.
  apply (get_mood_history_unscored_entry Cases.mood_reader _ "u1" Cases.all_entries
           None None (Cases.unscored 5)).
  - discriminate.
  - reflexivity.
  - vm_compute. right. right. left.
  - reflexivity.
  - reflexivity.
Defined.

(** ** Accounts *)

Lemma get_set_eq (c : list (string * gmap string Accounts.field)) (id : string)
    (doc : gmap string Accounts.field) :
  Accounts.get (Accounts.set c id doc) id = Some doc.
Proof.
  induction c as [|[id' doc'] c IH]; simpl.
  - rewrite String.eqb_refl. reflexivity.
  - destruct (String.eqb id id') eqn:E; simpl; rewrite ?String.eqb_refl, ?E; auto.
Qed.

Lemma get_set_ne (c : list (string * gmap string Accounts.field)) (id other : string)
    (doc : gmap string Accounts.field) :
  other <> id -> Accounts.get (Accounts.set c id doc) other = Accounts.get c other.
Proof.
  intros Hne. apply String.eqb_neq in Hne.
  induction c as [|[id' doc'] c IH]; simpl.
  - rewrite Hne. reflexivity.
  - destruct (String.eqb id id') eqn:E; simpl.
    + apply String.eqb_eq in E. subst id'. rewrite Hne. reflexivity.
    + rewrite IH. reflexivity.
Qed.

(** X25: A profile that is returned never carries the field passwordHash; its
    other fields are those of the stored document, and the settings are the
    stored ones, or empty when the user has none. *)
Theorem profile_hides_password_hash (e : Auth.env) (a : Accounts.db) (user_id : string)
    (profile settings : gmap string Accounts.field) :
  Auth.get_user_profile e a user_id = Auth.Profile profile settings ->
  profile !! "passwordHash" = None
  /\ (exists stored,
        Accounts.get (Accounts.users a) user_id = Some stored
        /\ forall k, k <> "passwordHash" -> profile !! k = stored !! k)
  /\ settings = default ∅ (Accounts.get (Accounts.userSettings a) user_id).
Proof.
  unfold Auth.get_user_profile.
  destruct (Py.falsy user_id); [discriminate|].
  destruct (Auth.profile_read e); [|discriminate].
  destruct (Accounts.get (Accounts.users a) user_id) as [stored|]; [|discriminate].
  destruct (Auth.settings_read e); [|discriminate].
  intros [= <- <-]. split; [apply lookup_delete_eq|]. split; [|reflexivity].
  exists stored. split; [reflexivity|].
  intros k Hk. apply lookup_delete_ne. congruence.
Qed.

Lemma profile_hides_password_hash_witness :
  (<["email" := Accounts.Text "a@example.org"]> ∅ : gmap string Accounts.field)
    !! "passwordHash" = None
  /\ (exists stored,
        Accounts.get (Accounts.users Cases.with_hash) "uid1" = Some stored
        /\ forall k, k <> "passwordHash" ->
             (<["email" := Accounts.Text "a@example.org"]> ∅ : gmap string Accounts.field) !! k
             = stored !! k)
  /\ (∅ : gmap string Accounts.field)
     = default ∅ (Accounts.get (Accounts.userSettings Cases.with_hash) "uid1").
Proof.
  apply (profile_hides_password_hash Cases.auth_ok Cases.with_hash "uid1").
  vm_compute. reflexivity.
Defined.

Lemma new_profile_no_hash (email display_name : string) (t : Z) :
  delete "passwordHash" (Auth.new_profile email display_name t)
  = Auth.new_profile email display_name t.
Proof.
  apply delete_id. unfold Auth.new_profile.
  rewrite !lookup_insert_ne by discriminate. apply lookup_empty.
Qed.

(** X26: After a registration that succeeded, the profile of the new user read
    back is the one just written: the email, the display name (the email when
    none was given), the two times of the write, and the four initial
    settings. *)
Theorem register_then_profile (e e' : Auth.env) (a : Accounts.db)
    (email password display_name uid token : string) :
  fst (Auth.register_user e a email password display_name) = Auth.Registered uid token ->
  uid <> "" ->
  (exists u, Auth.profile_read e' = Auth.Ok u) ->
  (exists u, Auth.settings_read e' = Auth.Ok u) ->
  exists t,
    Auth.get_user_profile e' (snd (Auth.register_user e a email password display_name)) uid
    = Auth.Profile
        (<["email" := Accounts.Text email]>
         (<["displayName" :=
              Accounts.Text (if Py.falsy display_name then email else display_name)]>
         (<["created" := Accounts.Time t]>
         (<["lastLogin" := Accounts.Time t]> ∅))))
        Auth.initial_settings.
Proof.
  intros Hreg Huid [u1 Hr1] [u2 Hr2]. unfold Auth.register_user in *.
  destruct (Py.falsy email || Py.falsy password); [discriminate|].
  destruct (Auth.create_user e _ _ _) as [uid'|msg];
    [|simpl in Hreg; unfold Auth.registration_error in Hreg;
      destruct (PyText.contains _ _); discriminate].
  destruct (Auth.profile_write e) as [t|msg];
    [|simpl in Hreg; unfold Auth.registration_error in Hreg;
      destruct (PyText.contains _ _); discriminate].
  destruct (Auth.settings_write e) as [[]|msg];
    [|simpl in Hreg; unfold Auth.registration_error in Hreg;
      destruct (PyText.contains _ _); discriminate].
  destruct (Auth.create_custom_token e uid') as [token'|msg];
    [|simpl in Hreg; unfold Auth.registration_error in Hreg;
      destruct (PyText.contains _ _); discriminate].
  simpl in Hreg. injection Hreg as -> ->.
  exists t. unfold Auth.get_user_profile.
  rewrite (falsy_nonempty _ Huid), Hr1. simpl.
  rewrite !get_set_eq, Hr2. simpl.
  rewrite new_profile_no_hash. reflexivity.
Qed.

Lemma register_then_profile_witness :
  exists t,
    Auth.get_user_profile Cases.auth_ok
      (snd (Auth.register_user Cases.auth_ok Cases.no_accounts "a@example.org" "secret" ""))
      "uid1"
    = Auth.Profile
        (<["email" := Accounts.Text "a@example.org"]>
         (<["displayName" := Accounts.Text "a@example.org"]>
         (<["created" := Accounts.Time t]>
         (<["lastLogin" := Accounts.Time t]> ∅))))
        Auth.initial_settings.
Proof.
  apply (register_then_profile Cases.auth_ok Cases.auth_ok Cases.no_accounts
           "a@example.org" "secret" "" "uid1" "token1").
  - reflexivity.
  - discriminate.
  - exists tt. reflexivity.
  - exists tt. reflexivity.
Defined.

(** X27: A token that verifies is accepted only when its user has a profile
    document: without one the answer is that of an invalid token and nothing
    is written; with one the answer carries the uid and the email of the
    token, the field lastLogin of that document becomes the time of the
    write, and no other document and no settings change. *)
Theorem verify_token_needs_profile (e : Auth.env) (a : Accounts.db)
    (id_token uid : string) (email : option string) (t : Z) :
  id_token <> "" ->
  Auth.verify_id_token e id_token = Auth.Ok (uid, email) ->
  Auth.login_write e = Auth.Ok t ->
  (Accounts.get (Accounts.users a) uid = None ->
   Auth.verify_token e a id_token = (Auth.InvalidToken, a))
  /\ (forall doc,
        Accounts.get (Accounts.users a) uid = Some doc ->
        fst (Auth.verify_token e a id_token) = Auth.Verified uid email
        /\ Accounts.get (Accounts.users (snd (Auth.verify_token e a id_token))) uid
           = Some (<["lastLogin" := Accounts.Time t]> doc)
        /\ Accounts.userSettings (snd (Auth.verify_token e a id_token))
           = Accounts.userSettings a
        /\ forall other,
             other <> uid ->
             Accounts.get (Accounts.users (snd (Auth.verify_token e a id_token))) other
             = Accounts.get (Accounts.users a) other).
Proof.
  intros Htok Hverify Hwrite. unfold Auth.verify_token, Accounts.update.
  rewrite (falsy_nonempty _ Htok), Hverify, Hwrite. split.
  - intros ->. reflexivity.
  - intros doc ->. simpl. split; [reflexivity|].
    rewrite get_set_eq, insert_empty, <- insert_union_singleton_l.
    split; [reflexivity|]. split; [reflexivity|].
    intros other Hne. apply get_set_ne, Hne.
Qed.

Lemma verify_token_needs_profile_witness :
  Auth.verify_token Cases.auth_ok Cases.no_accounts "token" = (Auth.InvalidToken, Cases.no_accounts)
  /\ fst (Auth.verify_token Cases.auth_ok Cases.with_hash "token")
     = Auth.Verified "uid1" (Some "a@example.org")
  /\ Accounts.get (Accounts.users (snd (Auth.verify_token Cases.auth_ok Cases.with_hash "token")))
       "uid1"
     = Some (<["lastLogin" := Accounts.Time 20]>
             (<["email" := Accounts.Text "a@example.org"]>
              (<["passwordHash" := Accounts.Text "5f4dcc"]> ∅))).
Proof.
  split.
  - destruct (verify_token_needs_profile Cases.auth_ok Cases.no_accounts "token" "uid1"
                (Some "a@example.org") 20) as [Hnone _];
      [discriminate | reflexivity | reflexivity |].
    apply Hnone. reflexivity.
  - destruct (verify_token_needs_profile Cases.auth_ok Cases.with_hash "token" "uid1"
                (Some "a@example.org") 20) as [_ Hsome];
      [discriminate | reflexivity | reflexivity |].
    destruct (Hsome (<["email" := Accounts.Text "a@example.org"]>
                     (<["passwordHash" := Accounts.Text "5f4dcc"]> ∅)))
      as (Hfst & Hget & _); [reflexivity|].
    split; [exact Hfst | exact Hget].
Defined.

(** ** The webhooks *)

Lemma sms_turn_isolated (e : Twilio.env) (d : Store.db)
    (from_number body message_type other : string) :
  other <> Twilio.resolve_user e ->
  Store.messages_of
    (snd (Twilio.process_incoming_message e d from_number body message_type)) other
  = Store.messages_of d other.
Proof.
  intros Hne. unfold Twilio.process_incoming_message.
  destruct (Store.stream _ _); [|reflexivity].
  unfold Twilio.store.
  destruct (Chat.user_write (Twilio.services e)) as [t1|]; [|reflexivity].
  assert (Hfirst : forall m,
    Store.messages_of (Store.add_message d (Twilio.resolve_user e) m) other
    = Store.messages_of d other).
  { intros m. unfold Store.messages_of. simpl.
    rewrite lookup_insert_ne by congruence. reflexivity. }
  destruct (Chat.high_risk _) as [high|]; [|apply Hfirst].
  destruct (Chat.bot_write (Twilio.services e)) as [t2|]; [|apply Hfirst].
  simpl. unfold Store.messages_of at 1. simpl.
  rewrite lookup_insert_ne by congruence. apply Hfirst.
Qed.

(** X15: A webhook request without a sender or without a text is answered with
    400 and touches neither store.  A request from a number that a user
    already has is answered with 200 and the TwiML around the text of the
    turn run for that user; it creates no account and changes no
    conversation but the one of that user. *)
Theorem webhook_known_number (e : TwilioService.env) (a : Accounts.db) (d : Store.db)
    (message_type from_number body : string) :
  (from_number = "" \/ body = "" ->
   TwilioService.webhook message_type e a d from_number body
   = ({| TwilioService.body := "Invalid request"; TwilioService.status := 400;
         TwilioService.content_type := None |}, (a, d)))
  /\ (forall user_id,
        from_number <> "" -> body <> "" -> user_id <> "" ->
        TwilioService.get_user_id_from_phone e a from_number = Some user_id ->
        fst (TwilioService.webhook message_type e a d from_number body)
        = {| TwilioService.body :=
               TwilioService.twiml
                 (fst (Twilio.process_incoming_message
                         {| Twilio.services := TwilioService.services e;
                            Twilio.found_user := Some user_id;
                            Twilio.new_user := "" |}
                         d from_number body message_type));
             TwilioService.status := 200;
             TwilioService.content_type := Some "text/xml" |}
        /\ fst (snd (TwilioService.webhook message_type e a d from_number body)) = a
        /\ forall other,
             other <> user_id ->
             Store.messages_of
               (snd (snd (TwilioService.webhook message_type e a d from_number body))) other
             = Store.messages_of d other).
Proof.
  split.
  - intros [-> | ->]; unfold TwilioService.webhook; simpl; [reflexivity|].
    rewrite orb_true_r. reflexivity.
  - intros user_id Hf Hb Hu Hfound. unfold TwilioService.webhook.
    rewrite (falsy_nonempty _ Hf), (falsy_nonempty _ Hb). simpl.
    unfold TwilioService.process_incoming_message.
    rewrite Hfound, (falsy_nonempty _ Hu). simpl.
    split; [reflexivity|]. split; [reflexivity|].
    intros other Hne. apply sms_turn_isolated.
    unfold Twilio.resolve_user. simpl. rewrite (falsy_nonempty _ Hu). exact Hne.
Qed.

Lemma webhook_known_number_witness :
  TwilioService.webhook "sms" (Cases.sms_services Scenario.mild_text (Some 100) (Some 101))
    Cases.no_accounts Scenario.no_db "+15550100" ""
  = ({| TwilioService.body := "Invalid request"; TwilioService.status := 400;
        TwilioService.content_type := None |}, (Cases.no_accounts, Scenario.no_db))
  /\ fst (TwilioService.webhook "whatsapp"
            (Cases.sms_services Scenario.mild_text (Some 100) (Some 101))
            (snd (TwilioService.create_user_for_phone
                    (Cases.sms_services Scenario.mild_text (Some 100) (Some 101))
                    Cases.no_accounts "+15550100"))
            Scenario.no_db "whatsapp:+15550100" "hi")
     = {| TwilioService.body := TwilioService.twiml "I hear you.";
          TwilioService.status := 200;
          TwilioService.content_type := Some "text/xml" |}.
Proof.
  split.
  - destruct (webhook_known_number
                (Cases.sms_services Scenario.mild_text (Some 100) (Some 101))
                Cases.no_accounts Scenario.no_db "sms" "+15550100" "") as [Hbad _].
    apply Hbad. right. reflexivity.
  - destruct (webhook_known_number
                (Cases.sms_services Scenario.mild_text (Some 100) (Some 101))
                (snd (TwilioService.create_user_for_phone
                        (Cases.sms_services Scenario.mild_text (Some 100) (Some 101))
                        Cases.no_accounts "+15550100"))
                Scenario.no_db "whatsapp" "whatsapp:+15550100" "hi") as [_ Hok].
    destruct (Hok "u7") as (Hanswer & _);
      [discriminate | discriminate | discriminate | reflexivity |].
    exact Hanswer.
Defined.
